(** * es51922: decoding of the 9-byte packets of an ES51922 multimeter

    A shallow embedding of [src/es51922.py] (test_bit, get_bits, the RANGE_*
    and FUNCTION tables, the STATUS / OPTION1 / OPTION2 templates, parse and
    output_readable), followed by the properties of the decoder. *)

From Stdlib Require Import ZArith QArith Qpower Lia List.
From Stdlib Require Strings.Byte.
From stdpp Require Import base option list gmap strings pretty.

Local Open Scope string_scope.
Local Open Scope Z_scope.

(** ** Exceptions

    Python raises; the embedding returns [inl e].  Each constructor is one
    raise site of the module; [py_exception] gives the Python class that the
    site raises. *)
Inductive error : Type :=
  | FramingError            (* struct.unpack("B"*9, packet), packet not 9 bytes *)
  | InvalidStatusBits       (* get_bits: raise ValueError *)
  | TemplateIndexError      (* get_bits: template[3-i] out of range *)
  | UnknownFunction         (* parse: FUNCTION[d_function & 0x0f] *)
  | NoRangeTable            (* parse: function[1][...] with function[1] = None *)
  | UnknownRange            (* parse: function[1][d_range & 0x0f] out of range *)
  | MissingFlag (name : string) (* parse: options[name] with name not a key *)
  | ConflictingCurrentType  (* parse: raise ValueError (AC and DC) *)
  | AttributeError.         (* output_readable: line.append *)

Definition py_exception (e : error) : string :=
  match e with
  | FramingError => "struct.error"
  | InvalidStatusBits => "ValueError"
  | TemplateIndexError => "IndexError"
  | UnknownFunction => "KeyError"
  | NoRangeTable => "TypeError"
  | UnknownRange => "IndexError"
  | MissingFlag _ => "KeyError"
  | ConflictingCurrentType => "ValueError"
  | AttributeError => "AttributeError"
  end.

Definition result (A : Type) : Type := (error + A)%type.

Definition raise {A : Type} (e : error) : result A := inl e.
Definition ret {A : Type} (a : A) : result A := inr a.
Definition bind {A B : Type} (m : result A) (k : A -> result B) : result B :=
  match m with
  | inl e => inl e
  | inr a => k a
  end.

Notation "'let!' x ':=' m 'in' k" := (bind m (fun x => k))
  (at level 10, x name, m at level 100, k at level 200).

(** ** Bits *)

(** [test_bit]: mask = 1 << offset; return bool(int_type & mask). *)
Definition test_bit (int_type offset : Z) : bool :=
  let mask := Z.shiftl 1 offset in
  negb (Z.land int_type mask =? 0).

(** A template slot is a bit name or a fixed bit (an int). *)
Definition slot : Type := (string + Z)%type.

Definition name (s : string) : slot := inl s.
Definition fixed (z : Z) : slot := inr z.

(** [bit_name in (0,1)]: false for a string. *)
Definition in_0_1 (bit_name : slot) : bool :=
  match bit_name with
  | inl _ => false
  | inr z => (z =? 0) || (z =? 1)
  end.

(** [bit == bit_name]: a bool equals the int 0 or 1 of the same value, and
    never a string. *)
Definition bit_eq (bit : bool) (bit_name : slot) : bool :=
  match bit_name with
  | inl _ => false
  | inr z => Z.b2z bit =? z
  end.

(** One iteration of the loop of [get_bits]. *)
Definition get_bits_step (int_type : Z) (template : list slot)
    (bits : gmap slot bool) (i : nat) : result (gmap slot bool) :=
  let bit := test_bit int_type (Z.of_nat i) in
  match template !! (3 - i)%nat with
  | None => raise TemplateIndexError
  | Some bit_name =>
      if in_0_1 bit_name && bit_eq bit bit_name then ret bits
      else if in_0_1 bit_name then raise InvalidStatusBits
      else ret (<[bit_name := bit]> bits)
  end.

Fixpoint get_bits_loop (int_type : Z) (template : list slot)
    (indices : list nat) (bits : gmap slot bool) : result (gmap slot bool) :=
  match indices with
  | [] => ret bits
  | i :: indices' =>
      let! bits' := get_bits_step int_type template bits i in
      get_bits_loop int_type template indices' bits'
  end.

(** [get_bits]: bits = {}; for i in range(4): ...; return bits. *)
Definition get_bits (int_type : Z) (template : list slot)
    : result (gmap slot bool) :=
  get_bits_loop int_type template (seq 0 4) ∅.

(** ** Range tables

    An entry is (value_multiplier, dp_digit_position, display_unit).  The
    multipliers of the module are the float literals 1e-9 .. 1e6; a literal
    [1e<k>] is kept as its exponent [k]. *)
Record range_entry : Type := RangeEntry {
  value_multiplier : Z;
  dp_digit_position : Z;
  range_display_unit : string
}.

Definition RANGE_DIODE : list range_entry :=
  [ RangeEntry 0 3 "V" ].

Definition RANGE_FREQUENCY : list range_entry :=
  [ RangeEntry 0 0 "Hz";
    RangeEntry 3 2 "kHz";
    RangeEntry 3 1 "kHz";
    RangeEntry 6 3 "MHz";
    RangeEntry 6 2 "MHz" ].

Definition RANGE_RESISTANCE : list range_entry :=
  [ RangeEntry 0 1 "Ω";
    RangeEntry 3 3 "kΩ";
    RangeEntry 3 2 "kΩ";
    RangeEntry 3 1 "kΩ";
    RangeEntry 6 3 "MΩ";
    RangeEntry 6 2 "MΩ" ].

Definition RANGE_CONTINUITY : list range_entry :=
  [ RangeEntry 0 1 "Ω" ].

Definition RANGE_CAPACITANCE : list range_entry :=
  [ RangeEntry (-9) 3 "nF";
    RangeEntry (-9) 2 "nF";
    RangeEntry (-9) 1 "nF";
    RangeEntry (-6) 3 "µF";
    RangeEntry (-6) 2 "µF";
    RangeEntry (-6) 1 "µF";
    RangeEntry (-3) 3 "mF" ].

Definition RANGE_CURRENT_10A : list range_entry :=
  [ RangeEntry 0 2 "A" ].

Definition RANGE_VOLTAGE : list range_entry :=
  [ RangeEntry 0 3 "V";
    RangeEntry 0 2 "V";
    RangeEntry 0 1 "V";
    RangeEntry 0 0 "V";
    RangeEntry (-1) 1 "mV" ].

Definition RANGE_CURRENT_AUTO_UA : list range_entry :=
  [ RangeEntry (-6) 1 "µA";
    RangeEntry (-6) 0 "µA" ].

Definition RANGE_HFE : list range_entry :=
  [ RangeEntry 0 0 "hFe" ].

Definition RANGE_CURRENT_AUTO_MA : list range_entry :=
  [ RangeEntry (-3) 2 "mA";
    RangeEntry (-3) 1 "mA" ].

(** An entry of FUNCTION: (function, subfunction, unit); the subfunction is
    a range table or None. *)
Abbreviation function_entry :=
  (string * option (list range_entry) * string)%type.

Definition FUNCTION : gmap Z function_entry :=
  list_to_map
    [ (0x01, ("diode", Some RANGE_DIODE, "V"));
      (0x02, ("frequency", Some RANGE_FREQUENCY, "Hz"));
      (0x03, ("resistance", Some RANGE_RESISTANCE, "Ω"));
      (0x04, ("temperature", None, "deg"));
      (0x05, ("continuity", Some RANGE_CONTINUITY, "Ω"));
      (0x06, ("capacitance", Some RANGE_CAPACITANCE, "F"));
      (0x09, ("current", Some RANGE_CURRENT_10A, "A"));
      (0x0b, ("voltage", Some RANGE_VOLTAGE, "V"));
      (0x0d, ("current", Some RANGE_CURRENT_AUTO_UA, "A"));
      (0x0e, ("current gain", Some RANGE_HFE, EmptyString));
      (0x0f, ("current", Some RANGE_CURRENT_AUTO_MA, "A")) ].

Definition STATUS : list slot :=
  [ name "JUDGE"; name "SIGN"; name "BATT"; name "OL" ].

Definition OPTION1 : list slot :=
  [ name "HOLD"; name "MAX"; name "MIN"; fixed 0 ].

Definition OPTION2 : list slot :=
  [ name "DC"; name "AC"; name "AUTO"; fixed 0 ].

(** ** Decimal

    [decimal.Decimal] as the module uses it: a finite number
    (-1)^sign * int * 10^exp, built from an int and divided by an int under
    the default context (prec = 28, ROUND_HALF_EVEN).  The exponent limits
    of the context (Emin = -999999, Emax = 999999) are far from every
    exponent that arises here and are left out. *)
Record Decimal : Type := mkDecimal {
  dec_sign : bool;
  dec_int : Z;
  dec_exp : Z
}.

Definition prec : Z := 28.

(** [Decimal(n)] for an int [n]. *)
Definition Decimal_of_int (n : Z) : Decimal :=
  mkDecimal (n <? 0) (Z.abs n) 0.

Fixpoint ndigits_fuel (fuel : nat) (n : Z) : Z :=
  match fuel with
  | O => 1
  | S fuel' => if n <? 10 then 1 else 1 + ndigits_fuel fuel' (n / 10)
  end.

(** [len(str(n))] for [0 <= n]: the number of decimal digits. *)
Definition ndigits (n : Z) : Z :=
  ndigits_fuel (S (Z.to_nat (Z.log2 n))) n.

(** Rounding to the precision of the context ([_fix]): a coefficient of more
    than [prec] digits keeps its first [prec] digits, rounded half-even. *)
Definition dec_fix (d : Decimal) : Decimal :=
  let len := ndigits (dec_int d) in
  if (dec_int d =? 0) || (len <=? prec) then d
  else
    let drop := len - prec in
    let q := dec_int d / 10 ^ drop in
    let r := dec_int d mod 10 ^ drop in
    let half := 5 * 10 ^ (drop - 1) in
    let q' := if (half <? r) || ((r =? half) && Z.odd q) then q + 1 else q in
    if prec <? ndigits q'
    then mkDecimal (dec_sign d) (q' / 10) (dec_exp d + drop + 1)
    else mkDecimal (dec_sign d) q' (dec_exp d + drop).

(** The loop of an exact division:
    while exp < ideal_exp and coeff % 10 == 0: coeff //= 10; exp += 1 *)
Fixpoint strip_zeros (fuel : nat) (ideal_exp coeff exp : Z) : Z * Z :=
  match fuel with
  | O => (coeff, exp)
  | S fuel' =>
      if (exp <? ideal_exp) && (coeff mod 10 =? 0)
      then strip_zeros fuel' ideal_exp (coeff / 10) (exp + 1)
      else (coeff, exp)
  end.

(** [a / b] for a non-zero [b] ([Decimal.__truediv__]). *)
Definition dec_div (a b : Decimal) : Decimal :=
  let sign := xorb (dec_sign a) (dec_sign b) in
  let ideal_exp := dec_exp a - dec_exp b in
  if dec_int a =? 0 then dec_fix (mkDecimal sign 0 ideal_exp)
  else
    let shift := ndigits (dec_int b) - ndigits (dec_int a) + prec + 1 in
    let exp := dec_exp a - dec_exp b - shift in
    let '(coeff, remainder) :=
      if 0 <=? shift
      then Z.div_eucl (dec_int a * 10 ^ shift) (dec_int b)
      else Z.div_eucl (dec_int a) (dec_int b * 10 ^ (- shift)) in
    let '(coeff, exp) :=
      if negb (remainder =? 0)
      then (if coeff mod 5 =? 0 then coeff + 1 else coeff, exp)
      else strip_zeros (Z.to_nat (ideal_exp - exp)) ideal_exp coeff exp in
    dec_fix (mkDecimal sign coeff exp).

(** [Decimal(n) / m] for ints [n] and [m]: the int operand is converted. *)
Definition dec_div_int (a : Decimal) (m : Z) : Decimal :=
  dec_div a (Decimal_of_int m).

(** The number a Decimal stands for. *)
Definition dec_Q (d : Decimal) : Q :=
  (inject_Z (if dec_sign d then - dec_int d else dec_int d)
   * Qpower (inject_Z 10) (dec_exp d))%Q.

(** ** Floats

    [value] is a double: float(display_value) * m_range[0].  Its rounding is
    not interpreted; the expression is kept as it is written. *)
Inductive pyfloat : Type :=
  | float_of_Decimal (d : Decimal)
  | float_1e (k : Z)
  | float_mul (a b : pyfloat).

(** ** parse *)

Definition byte_val (b : Byte.byte) : Z := Z.of_N (Byte.to_N b).

(** [struct.unpack("B"*9, packet)] *)
Definition struct_unpack_9B (packet : list Byte.byte)
    : result (Z * Z * Z * Z * Z * Z * Z * Z * Z) :=
  match map byte_val packet with
  | [b0; b1; b2; b3; b4; b5; b6; b7; b8] =>
      ret (b0, b1, b2, b3, b4, b5, b6, b7, b8)
  | _ => raise FramingError
  end.

(** for d_option, OPTION in zip(d_options, OPTIONS):
        bits = get_bits(d_option, OPTION); options.update(bits) *)
Fixpoint options_loop (pairs : list (Z * list slot))
    (options : gmap slot bool) : result (gmap slot bool) :=
  match pairs with
  | [] => ret options
  | (d_option, OPTION) :: pairs' =>
      let! bits := get_bits d_option OPTION in
      options_loop pairs' (bits ∪ options)
  end.

(** [options[key]] *)
Definition getitem (options : gmap slot bool) (key : string) : result bool :=
  match options !! name key with
  | Some b => ret b
  | None => raise (MissingFlag key)
  end.

(** [function[1][i]]: None is not subscriptable, a list raises out of
    range; [i] is never negative here. *)
Definition subscript (table : option (list range_entry)) (i : Z)
    : result range_entry :=
  match table with
  | None => raise NoRangeTable
  | Some l =>
      match l !! Z.to_nat i with
      | Some e => ret e
      | None => raise UnknownRange
      end
  end.

(** display_value = 0
    for i, digit in zip(range(4), digits): display_value += digit*(10**(3-i)) *)
Definition sum_digits (digits : list Z) : Z :=
  fold_left (fun display_value '(i, digit) =>
               display_value + digit * 10 ^ (3 - Z.of_nat i))
            (zip (seq 0 4) digits) 0.

(** The local variables of [parse] when it reaches [results = {...}].  The
    empty string that [display_value] and [value] are set to on overload is
    [None]; so is Python's None of [current] and [peak]. *)
Record frame : Type := mkFrame {
  f_options : gmap slot bool;
  f_function : function_entry;
  f_mode : string;
  f_m_range : range_entry;
  f_unit : string;
  f_current : option string;
  f_operation : string;
  f_mrange : string;
  f_battery_low : bool;
  f_hold : bool;
  f_peak : option string;
  f_digits : list Z;
  f_display_value : option Decimal;
  f_display_unit : string;
  f_value : option pyfloat
}.

Definition parse_frame (packet : list Byte.byte) : result frame :=
  let! fields := struct_unpack_9B packet in
  let '(d_range, d_digit0, d_digit1, d_digit2, d_digit3,
        d_function, d_status, d_option1, d_option2) := fields in
  let d_options := [d_status; d_option1; d_option2] in
  let OPTIONS := [STATUS; OPTION1; OPTION2] in
  let! options := options_loop (zip d_options OPTIONS) ∅ in
  let! function :=
    match FUNCTION !! Z.land d_function 0x0f with
    | Some fn => ret fn
    | None => raise UnknownFunction
    end in
  let mode := function.1.1 in
  let! m_range := subscript function.1.2 (Z.land d_range 0x0f) in
  let unit := function.2 in
  let! judge :=
    if String.eqb mode "frequency" then getitem options "JUDGE"
    else ret false in
  let '(mode, unit, m_range) :=
    if judge then ("duty_cycle", "%", RangeEntry 0 1 "%")
    else (mode, unit, m_range) in
  let! ac := getitem options "AC" in
  let! ac_and_dc := if ac then getitem options "DC" else ret false in
  let! current :=
    if ac_and_dc then raise ConflictingCurrentType
    else
      let! dc := getitem options "DC" in
      if dc then ret (Some "DC")
      else
        let! ac := getitem options "AC" in
        if ac then ret (Some "AC") else ret None in
  let! ol := getitem options "OL" in
  let operation := if ol then "overload" else "normal" in
  let! auto := getitem options "AUTO" in
  let mrange := if auto then "auto" else "manual" in
  let! batt := getitem options "BATT" in
  let battery_low := if batt then true else false in
  let! hold_flag := getitem options "HOLD" in
  let hold := if hold_flag then true else false in
  let! max_flag := getitem options "MAX" in
  let! peak :=
    if max_flag then ret (Some "max")
    else
      let! min_flag := getitem options "MIN" in
      if min_flag then ret (Some "min") else ret None in
  let digits := [d_digit0; d_digit1; d_digit2; d_digit3] in
  let digits := map (fun digit => Z.land digit 0x0f) digits in
  let display_value := sum_digits digits in
  let! sign := getitem options "SIGN" in
  let display_value := if sign then - display_value else display_value in
  let display_value :=
    dec_div_int (Decimal_of_int display_value)
                (10 ^ dp_digit_position m_range) in
  let display_unit := range_display_unit m_range in
  let value :=
    float_mul (float_of_Decimal display_value)
              (float_1e (value_multiplier m_range)) in
  let '(display_value, value) :=
    if negb (String.eqb operation "normal") then (None, None)
    else (Some display_value, Some value) in
  ret (mkFrame options function mode m_range unit current operation mrange
               battery_low hold peak digits display_value display_unit value).

(** The dictionary [results]. *)
Record Measurement : Type := mkMeasurement {
  res_value : option pyfloat;
  res_unit : string;
  res_display_value : option Decimal;
  res_display_unit : string;
  res_mode : string;
  res_current : option string;
  res_peak : option string;
  res_hold : bool;
  res_range : string;
  res_operation : string;
  res_battery_low : bool
}.

Definition results (fr : frame) : Measurement :=
  {| res_value := f_value fr;
     res_unit := f_unit fr;
     res_display_value := f_display_value fr;
     res_display_unit := f_display_unit fr;
     res_mode := f_mode fr;
     res_current := f_current fr;
     res_peak := f_peak fr;
     res_hold := f_hold fr;
     res_range := f_mrange fr;
     res_operation := f_operation fr;
     res_battery_low := f_battery_low fr |}.

Definition parse (packet : list Byte.byte) : result Measurement :=
  let! fr := parse_frame packet in
  ret (results fr).

(** ** output_readable *)

Definition zeros (k : Z) : string :=
  fold_right String.append EmptyString (replicate (Z.to_nat k) "0").

(** [str(d)] for a finite Decimal ([Decimal.__str__], capitals = 1). *)
Definition Decimal_str (d : Decimal) : string :=
  let sign := if dec_sign d then "-" else EmptyString in
  let digits := pretty (dec_int d) in
  let len := Z.of_nat (String.length digits) in
  let leftdigits := dec_exp d + len in
  let dotplace :=
    if (dec_exp d <=? 0) && (-6 <? leftdigits) then leftdigits else 1 in
  let '(intpart, fracpart) :=
    if dotplace <=? 0
    then ("0", "." +:+ zeros (- dotplace) +:+ digits)
    else if len <=? dotplace
    then (digits +:+ zeros (dotplace - len), EmptyString)
    else (String.substring 0 (Z.to_nat dotplace) digits,
          "." +:+ String.substring (Z.to_nat dotplace)
                                   (Z.to_nat (len - dotplace)) digits) in
  let exp :=
    if leftdigits =? dotplace then EmptyString
    else "E" +:+ (if 0 <=? leftdigits - dotplace then "+" else EmptyString)
             +:+ pretty (leftdigits - dotplace) in
  sign +:+ intpart +:+ fracpart +:+ exp.

(** What [format] writes for [display_value]: a Decimal, or the empty
    string of an overload. *)
Definition format_display_value (v : option Decimal) : string :=
  match v with
  | Some d => Decimal_str d
  | None => EmptyString
  end.

(** [line.append(...)]: [line] is a str, and a str has no attribute
    [append]. *)
Definition str_append (line suffix : string) : result string :=
  raise AttributeError.

Definition output_readable (results : Measurement) : result string :=
  let operation := res_operation results in
  let battery_low := res_battery_low results in
  let line :=
    if String.eqb operation "normal" then
      let display_value := res_display_value results in
      let display_unit := res_display_unit results in
      format_display_value display_value +:+ " " +:+ display_unit
    else
      "-, the measurement is " +:+ operation +:+ "ed!" in
  if battery_low then
    let! _ := str_append line " Battery low!" in
    ret line
  else ret line.

(** ** Definitions for the statements *)

(** The flags of the three templates, as [get_bits] inserts them (bit 0
    first). *)
Definition status_bits (x : Z) : gmap slot bool :=
  <[name "JUDGE" := test_bit x 3]>
    (<[name "SIGN" := test_bit x 2]>
       (<[name "BATT" := test_bit x 1]>
          (<[name "OL" := test_bit x 0]> ∅))).

Definition option1_bits (x : Z) : gmap slot bool :=
  <[name "HOLD" := test_bit x 3]>
    (<[name "MAX" := test_bit x 2]>
       (<[name "MIN" := test_bit x 1]> ∅)).

Definition option2_bits (x : Z) : gmap slot bool :=
  <[name "DC" := test_bit x 3]>
    (<[name "AC" := test_bit x 2]>
       (<[name "AUTO" := test_bit x 1]> ∅)).

(** The dictionary [options] after the three updates. *)
Definition flags (d_status d_option1 d_option2 : Z) : gmap slot bool :=
  option2_bits d_option2 ∪ (option1_bits d_option1 ∪ (status_bits d_status ∪ ∅)).

(** The frame that [parse] builds once the function entry [fn] and the
    range entry [rng] are looked up and AC and DC do not conflict. *)
Definition frame_of
    (digit0 digit1 digit2 digit3 status_byte option1_byte option2_byte
       : Byte.byte)
    (fn : function_entry) (rng : range_entry) : frame :=
  let d_status := byte_val status_byte in
  let d_option1 := byte_val option1_byte in
  let d_option2 := byte_val option2_byte in
  let judge := String.eqb fn.1.1 "frequency" && test_bit d_status 3 in
  let mode := if judge then "duty_cycle" else fn.1.1 in
  let unit := if judge then "%" else fn.2 in
  let m_range := if judge then RangeEntry 0 1 "%" else rng in
  let digits := map (fun digit => Z.land digit 0x0f)
                    [byte_val digit0; byte_val digit1;
                     byte_val digit2; byte_val digit3] in
  let n := sum_digits digits in
  let display_value :=
    dec_div_int (Decimal_of_int (if test_bit d_status 2 then - n else n))
                (10 ^ dp_digit_position m_range) in
  mkFrame (flags d_status d_option1 d_option2) fn mode m_range unit
    (if test_bit d_option2 3 then Some "DC"
     else if test_bit d_option2 2 then Some "AC" else None)
    (if test_bit d_status 0 then "overload" else "normal")
    (if test_bit d_option2 1 then "auto" else "manual")
    (test_bit d_status 1)
    (test_bit d_option1 3)
    (if test_bit d_option1 2 then Some "max"
     else if test_bit d_option1 1 then Some "min" else None)
    digits
    (if test_bit d_status 0 then None else Some display_value)
    (range_display_unit m_range)
    (if test_bit d_status 0 then None
     else Some (float_mul (float_of_Decimal display_value)
                          (float_1e (value_multiplier m_range)))).

(** The integer that the four digit nibbles spell, most significant
    first. *)
Definition digits_integer (d0 d1 d2 d3 : Byte.byte) : Z :=
  1000 * Z.land (byte_val d0) 0x0f + 100 * Z.land (byte_val d1) 0x0f
  + 10 * Z.land (byte_val d2) 0x0f + Z.land (byte_val d3) 0x0f.

(** Packets and results used as concrete cases: the voltage reading 6.000 V
    (DC, manual range), the same with OL set, with BATT set, and one whose
    digit nibbles are 15, 10, 12, 15. *)
Definition scenario_1_packet : list Byte.byte :=
  [Byte.x00; Byte.x06; Byte.x00; Byte.x00; Byte.x00;
   Byte.x0b; Byte.x00; Byte.x00; Byte.x08].

Definition scenario_1_results : Measurement :=
  {| res_value := Some (float_mul (float_of_Decimal (mkDecimal false 6 0))
                                  (float_1e 0));
     res_unit := "V";
     res_display_value := Some (mkDecimal false 6 0);
     res_display_unit := "V";
     res_mode := "voltage";
     res_current := Some "DC";
     res_peak := None;
     res_hold := false;
     res_range := "manual";
     res_operation := "normal";
     res_battery_low := false |}.

Definition scenario_2_packet : list Byte.byte :=
  [Byte.x00; Byte.x06; Byte.x00; Byte.x00; Byte.x00;
   Byte.x0b; Byte.x01; Byte.x00; Byte.x08].

Definition scenario_2_results : Measurement :=
  {| res_value := None;
     res_unit := "V";
     res_display_value := None;
     res_display_unit := "V";
     res_mode := "voltage";
     res_current := Some "DC";
     res_peak := None;
     res_hold := false;
     res_range := "manual";
     res_operation := "overload";
     res_battery_low := false |}.

(** The function codes that FUNCTION has a key for. *)
Definition registered_codes : list Z :=
  [0x01; 0x02; 0x03; 0x04; 0x05; 0x06; 0x09; 0x0b; 0x0d; 0x0e; 0x0f].

Definition invalid_bcd_packet : list Byte.byte :=
  [Byte.x00; Byte.x0f; Byte.x0a; Byte.x0c; Byte.x0f;
   Byte.x0b; Byte.x00; Byte.x00; Byte.x08].

Definition battery_low_packet : list Byte.byte :=
  [Byte.x00; Byte.x06; Byte.x00; Byte.x00; Byte.x00;
   Byte.x0b; Byte.x02; Byte.x00; Byte.x08].

Definition battery_low_results : Measurement :=
  {| res_value := Some (float_mul (float_of_Decimal (mkDecimal false 6 0))
                                  (float_1e 0));
     res_unit := "V";
     res_display_value := Some (mkDecimal false 6 0);
     res_display_unit := "V";
     res_mode := "voltage";
     res_current := Some "DC";
     res_peak := None;
     res_hold := false;
     res_range := "manual";
     res_operation := "normal";
     res_battery_low := true |}.

(** The ten flag names. *)
Definition flag_names : list string :=
  ["JUDGE"; "SIGN"; "BATT"; "OL"; "HOLD"; "MAX"; "MIN"; "DC"; "AC"; "AUTO"].

(** ** format_field, output_csv *)

(** Exceptions of the presentation functions and of the read loop. *)
Inductive exn : Type :=
  | KeyError_results (key : string) (* results[field_name], no such key *)
  | UnboundLocalError (var : string) (* a local read before it is assigned *)
  | NotImplementedError             (* main: raise NotImplementedError *)
  | Raised (e : error).             (* an exception that main lets through *)

(** What the keys of [results] other than 'value' hold: None, a bool, a str
    (the empty string of an overload included) or a Decimal. *)
Inductive pyvalue : Type :=
  | PyNone
  | PyBool (b : bool)
  | PyStr (s : string)
  | PyDecimal (d : Decimal).

Definition of_option_str (o : option string) : pyvalue :=
  match o with
  | Some s => PyStr s
  | None => PyNone
  end.

(** [results[field_name]] for a key other than 'value'. *)
Definition results_getitem (results : Measurement) (field_name : string)
    : option pyvalue :=
  if String.eqb field_name "unit" then Some (PyStr (res_unit results))
  else if String.eqb field_name "display_value" then
    Some (match res_display_value results with
          | Some d => PyDecimal d
          | None => PyStr EmptyString
          end)
  else if String.eqb field_name "display_unit" then
    Some (PyStr (res_display_unit results))
  else if String.eqb field_name "mode" then Some (PyStr (res_mode results))
  else if String.eqb field_name "current" then
    Some (of_option_str (res_current results))
  else if String.eqb field_name "peak" then
    Some (of_option_str (res_peak results))
  else if String.eqb field_name "hold" then Some (PyBool (res_hold results))
  else if String.eqb field_name "range" then Some (PyStr (res_range results))
  else if String.eqb field_name "operation" then
    Some (PyStr (res_operation results))
  else if String.eqb field_name "battery_low" then
    Some (PyBool (res_battery_low results))
  else None.

(** [d == z] for a Decimal and an int: equality of the numbers. *)
Definition dec_eq_int (d : Decimal) (z : Z) : bool :=
  let v := if dec_sign d then - dec_int d else dec_int d in
  if 0 <=? dec_exp d then v * 10 ^ dec_exp d =? z
  else v =? z * 10 ^ (- dec_exp d).

(** [value == None], [value == True], [value == False]: True is 1 and False
    is 0 for a bool and for a Decimal; a str equals neither. *)
Definition eq_None (value : pyvalue) : bool :=
  match value with
  | PyNone => true
  | _ => false
  end.

Definition eq_bool (value : pyvalue) (b : bool) : bool :=
  match value with
  | PyNone => false
  | PyBool b' => Bool.eqb b' b
  | PyStr _ => false
  | PyDecimal d => dec_eq_int d (Z.b2z b)
  end.

(** [str(value)] *)
Definition pystr (value : pyvalue) : string :=
  match value with
  | PyNone => "None"
  | PyBool b => if b then "True" else "False"
  | PyStr s => s
  | PyDecimal d => Decimal_str d
  end.

(** [format_field].  [str_float] is [str] on a float, which is not
    interpreted here.  Every Measurement has the key 'value', so
    [results['value']] is read without a lookup that can fail. *)
Definition format_field (str_float : pyfloat -> string)
    (results : Measurement) (field_name : string) : exn + string :=
  if String.eqb field_name "value" then
    let value := res_value results in
    if String.eqb (res_operation results) "normal" then
      inr (match value with
           | Some x => str_float x
           | None => EmptyString
           end)
    else inr EmptyString
  else
    match results_getitem results field_name with
    | None => inl (KeyError_results field_name)
    | Some value =>
        if eq_None value then inr EmptyString
        else if eq_bool value true then inr "1"
        else if eq_bool value false then inr "0"
        else inr (pystr value)
    end.

Definition CSV_FIELDS : list string :=
  ["value"; "unit"; "mode"; "current"; "operation"; "peak";
   "battery_low"; "hold"].

(** [sep.join(l)] *)
Fixpoint join (sep : string) (l : list string) : string :=
  match l with
  | [] => EmptyString
  | [x] => x
  | x :: l' => x +:+ sep +:+ join sep l'
  end.

(** The list comprehension of [output_csv]: the first field that raises
    ends it. *)
Fixpoint format_fields (str_float : pyfloat -> string)
    (results : Measurement) (field_names : list string)
    : exn + list string :=
  match field_names with
  | [] => inr []
  | field_name :: rest =>
      match format_field str_float results field_name with
      | inl e => inl e
      | inr s =>
          match format_fields str_float results rest with
          | inl e => inl e
          | inr l => inr (s :: l)
          end
      end
  end.

Definition output_csv (str_float : pyfloat -> string)
    (results : Measurement) : exn + string :=
  match format_fields str_float results CSV_FIELDS with
  | inl e => inl e
  | inr field_data => inr (join ";" field_data)
  end.

(** ** The read loop of main

    What main does with one input line once it is read, stripped and
    encoded (the statements from [if len(line)==9] on), and how it binds
    [file_name] before the loop.  Reading, stripping, encoding and the
    clock are outside: the line arrives as bytes and the timestamp as its
    date and time texts. *)

Definition newline : string := String (Ascii.ascii_of_nat 10) EmptyString.

(** What the loop does to the outside. *)
Inductive event : Type :=
  | LogWarning_error_packet (e : error) (line : list Byte.byte)
      (* 'Error "{}" packet from multimeter: "{}"' *)
  | LogWarning_unknown_packet (line : list Byte.byte) (len : nat)
      (* 'Unknown packet from multimeter: "{}", length: {}' *)
  | LogWarning_not_a_response
      (* 'Not a response from the multimeter: ""' *)
  | LogInfo_writing (file_name : string)
  | LogError_no_file_name
  | FileOpen (file_name : string) (file_mode : string)
  | FileWrite (text : string)
  | FileClose
  | Print (text : string).

(** [if args.file:]: None and the empty string are false. *)
Definition truthy (o : option string) : bool :=
  match o with
  | Some s => negb (String.eqb s EmptyString)
  | None => false
  end.

(** The statements of main between the logging set-up and the loop:
    [stamp] is the formatted start time.  Returns the events and the
    binding of [file_name] (None: never assigned). *)
Definition main_setup (mode : string) (args_file : option string)
    (stamp : string) : list event * option string :=
  if String.eqb mode "csv" then
    let file_name :=
      if truthy args_file then default EmptyString args_file
      else "measurement_" +:+ stamp +:+ ".csv" in
    ([FileOpen file_name "w";
      LogInfo_writing file_name;
      FileWrite ("timestamp;" +:+ join ";" CSV_FIELDS +:+ newline)],
     Some file_name)
  else if String.eqb mode "chch" then
    if truthy args_file then ([], args_file)
    else ([LogError_no_file_name], None)
  else ([], None).

(** One pass of the loop on a line.  [results] is None while the local has
    not been assigned.  The outcome is the events so far and either the
    exception that leaves main or the new binding of [results]. *)
Definition loop_body (str_float : pyfloat -> string) (mode : string)
    (file_name : option string) (ts_date ts_time : string)
    (results : option Measurement) (line : list Byte.byte)
    : list event * (exn + option Measurement) :=
  let timestamp := ts_date +:+ " " +:+ ts_time in
  if (length line =? 9)%nat then
    let '(log, results) :=
      match parse line with
      | inr m => ([], Some m)
      | inl e => ([LogWarning_error_packet e line], results)
      end in
    if String.eqb mode "csv" then
      match results with
      | None => (log, inl (UnboundLocalError "results"))
      | Some m =>
          match output_csv str_float m with
          | inl e => (log, inl e)
          | inr text =>
              ((log ++ [FileWrite (timestamp +:+ ";" +:+ text +:+ newline)])%list,
               inr results)
          end
      end
    else if String.eqb mode "readable" then
      match results with
      | None => (log, inl (UnboundLocalError "results"))
      | Some m =>
          match output_readable m with
          | inl e => (log, inl (Raised e))
          | inr text =>
              ((log ++ [Print (ts_time +:+ " " +:+ text +:+ newline)])%list,
               inr results)
          end
      end
    else if String.eqb mode "plot" then
      match results with
      | None => (log, inl (UnboundLocalError "results"))
      | Some m =>
          let ost := res_mode m +:+ ": " in
          let ost :=
            if negb (String.eqb (res_operation m) "normal")
            then ost +:+ "overload"
            else ost +:+ match res_value m with
                         | Some x => str_float x
                         | None => EmptyString
                         end +:+ res_unit m in
          match file_name with
          | None => (log, inl (UnboundLocalError "file_name"))
          | Some name =>
              ((log ++ [FileOpen name "a"; FileWrite (ost +:+ newline);
                        FileClose; Print (ost +:+ newline)])%list,
               inr results)
          end
      end
    else (log, inl NotImplementedError)
  else if negb (length line =? 0)%nat then
    ([LogWarning_unknown_packet line (length line)], inr results)
  else ([LogWarning_not_a_response], inr results).

(** The loop over the lines read, each with the date and time texts of its
    timestamp: it stops at the first exception. *)
Fixpoint main_loop (str_float : pyfloat -> string) (mode : string)
    (file_name : option string) (results : option Measurement)
    (lines : list (string * string * list Byte.byte))
    : list event * (exn + option Measurement) :=
  match lines with
  | [] => ([], inr results)
  | (ts_date, ts_time, line) :: rest =>
      match loop_body str_float mode file_name ts_date ts_time results line with
      | (events, inl e) => (events, inl e)
      | (events, inr results') =>
          let '(events', outcome) :=
            main_loop str_float mode file_name results' rest in
          ((events ++ events')%list, outcome)
      end
  end.

(** ** Definitions for the further statements *)

(** A bit contradicts a slot when the slot is the fixed bit 0 or 1 and is
    not the bit. *)
Definition slot_mismatch (bit : bool) (bit_name : slot) : bool :=
  in_0_1 bit_name && negb (bit_eq bit bit_name).

(** What one slot adds to the dictionary: nothing for a fixed bit. *)
Definition slot_put (bit_name : slot) (bit : bool) (bits : gmap slot bool)
    : gmap slot bool :=
  if in_0_1 bit_name then bits else <[bit_name := bit]> bits.

(** The number of semicolons of a string. *)
Fixpoint count_semicolons (s : string) : nat :=
  match s with
  | EmptyString => 0
  | String c s' =>
      (if Ascii.eqb c (Ascii.ascii_of_nat 59) then 1 else 0)%nat
      + count_semicolons s'
  end.

(** "1" and "0", as [format_field] writes a bool. *)
Definition bool_text (b : bool) : string := if b then "1" else "0".

(** The keys of the dictionary [results]. *)
Definition results_keys : list string :=
  ["value"; "unit"; "display_value"; "display_unit"; "mode"; "current";
   "peak"; "hold"; "range"; "operation"; "battery_low"].

(** Whether an event puts text out (a file write or a print). *)
Definition is_output (ev : event) : bool :=
  match ev with
  | FileWrite _ | Print _ => true
  | _ => false
  end.

(** * Properties *)

Ltac elem_cases H :=
  repeat (apply elem_of_cons in H as [H | H]);
  [ .. | apply elem_of_nil in H; destruct H ].

(** ** The model on concrete values *)

Example dec_div_6000_1000 :
  dec_div_int (Decimal_of_int 6000) (10 ^ 3) = mkDecimal false 6 0.
Proof. vm_compute. reflexivity. Qed.

Example dec_div_m6001_1000 :
  dec_div_int (Decimal_of_int (-6001)) (10 ^ 3) = mkDecimal true 6001 (-3).
Proof. vm_compute. reflexivity. Qed.

Example dec_div_1_3 :
  dec_div_int (Decimal_of_int 1) 3
  = mkDecimal false 3333333333333333333333333333 (-28).
Proof. vm_compute. reflexivity. Qed.

Example dec_div_2_3 :
  dec_div_int (Decimal_of_int 2) 3
  = mkDecimal false 6666666666666666666666666667 (-28).
Proof. vm_compute. reflexivity. Qed.

Example scenario_1 : parse scenario_1_packet = inr scenario_1_results.
Proof. vm_compute. reflexivity. Qed.

Example scenario_2 : parse scenario_2_packet = inr scenario_2_results.
Proof. vm_compute. reflexivity. Qed.

Example scenario_3 :
  parse [Byte.x00; Byte.x06; Byte.x00; Byte.x00; Byte.x00;
         Byte.x0b; Byte.x00; Byte.x00; Byte.x0c] = inl ConflictingCurrentType.
Proof. vm_compute. reflexivity. Qed.

Example scenario_4 :
  parse [Byte.x00; Byte.x06; Byte.x00; Byte.x00; Byte.x00;
         Byte.x0b; Byte.x00; Byte.x01; Byte.x08] = inl InvalidStatusBits.
Proof. vm_compute. reflexivity. Qed.

Example parse_short_packet :
  parse [Byte.x00; Byte.x06; Byte.x00; Byte.x00; Byte.x00;
         Byte.x0b; Byte.x00; Byte.x00] = inl FramingError.
Proof. vm_compute. reflexivity. Qed.

Example Decimal_str_6 : Decimal_str (mkDecimal false 6 0) = "6".
Proof. vm_compute. reflexivity. Qed.

Example Decimal_str_m6001 : Decimal_str (mkDecimal true 6001 (-3)) = "-6.001".
Proof. vm_compute. reflexivity. Qed.

Example Decimal_str_small : Decimal_str (mkDecimal false 5 (-3)) = "0.005".
Proof. vm_compute. reflexivity. Qed.

Example Decimal_str_sci : Decimal_str (mkDecimal false 12 (-9)) = "1.2E-8".
Proof. vm_compute. reflexivity. Qed.

(** ** The bit-flag decoder *)

Lemma test_bit_testbit (x i : Z) : 0 <= i -> test_bit x i = Z.testbit x i.
Proof.
  intros Hi. unfold test_bit.
  rewrite Z.shiftl_1_l.
  destruct (Z.testbit x i) eqn:Hb.
  - apply negb_true_iff, Z.eqb_neq. intros H0.
    assert (Ht : Z.testbit (Z.land x (2 ^ i)) i = true).
    { rewrite Z.land_spec, Hb, Z.pow2_bits_true; auto. }
    rewrite H0, Z.bits_0 in Ht. discriminate.
  - apply negb_false_iff, Z.eqb_eq. apply Z.bits_inj'. intros n Hn.
    rewrite Z.land_spec, Z.bits_0.
    destruct (Z.eq_dec i n) as [-> | Hne].
    + rewrite Hb. reflexivity.
    + rewrite Z.pow2_bits_false by assumption. apply andb_false_r.
Qed.

Lemma get_bits_STATUS (x : Z) : get_bits x STATUS = inr (status_bits x).
Proof. reflexivity. Qed.

Lemma get_bits_OPTION1 (x : Z) :
  get_bits x OPTION1
  = if test_bit x 0 then inl InvalidStatusBits else inr (option1_bits x).
Proof.
  unfold get_bits, option1_bits. cbn [seq get_bits_loop].
  unfold get_bits_step at 1. 
  change (OPTION1 !! (3 - 0)%nat) with (Some (fixed 0)).
  change (Z.of_nat 0) with 0.
  cbn [in_0_1 fixed bit_eq Z.eqb orb andb].
  destruct (test_bit x 0); reflexivity.
Qed.

Lemma get_bits_OPTION2 (x : Z) :
  get_bits x OPTION2
  = if test_bit x 0 then inl InvalidStatusBits else inr (option2_bits x).
Proof.
  unfold get_bits, option2_bits. cbn [seq get_bits_loop].
  unfold get_bits_step at 1.
  change (OPTION2 !! (3 - 0)%nat) with (Some (fixed 0)).
  change (Z.of_nat 0) with 0.
  cbn [in_0_1 fixed bit_eq Z.eqb orb andb].
  destruct (test_bit x 0); reflexivity.
Qed.

Lemma options_loop_spec (d_status d_option1 d_option2 : Z) :
  options_loop (zip [d_status; d_option1; d_option2] [STATUS; OPTION1; OPTION2]) ∅
  = if test_bit d_option1 0 || test_bit d_option2 0
    then inl InvalidStatusBits
    else inr (flags d_status d_option1 d_option2).
Proof.
  cbn [zip zip_with options_loop].
  rewrite get_bits_STATUS. cbn [bind].
  rewrite get_bits_OPTION1.
  destruct (test_bit d_option1 0); [reflexivity |]. cbn [bind orb].
  rewrite get_bits_OPTION2.
  destruct (test_bit d_option2 0); reflexivity.
Qed.

Lemma flags_lookup (d_status d_option1 d_option2 : Z) :
  let options := flags d_status d_option1 d_option2 in
  getitem options "JUDGE" = inr (test_bit d_status 3)
  /\ getitem options "SIGN" = inr (test_bit d_status 2)
  /\ getitem options "BATT" = inr (test_bit d_status 1)
  /\ getitem options "OL" = inr (test_bit d_status 0)
  /\ getitem options "HOLD" = inr (test_bit d_option1 3)
  /\ getitem options "MAX" = inr (test_bit d_option1 2)
  /\ getitem options "MIN" = inr (test_bit d_option1 1)
  /\ getitem options "DC" = inr (test_bit d_option2 3)
  /\ getitem options "AC" = inr (test_bit d_option2 2)
  /\ getitem options "AUTO" = inr (test_bit d_option2 1).
Proof.
  unfold flags, status_bits, option1_bits, option2_bits.
  generalize (test_bit d_status 0), (test_bit d_status 1),
    (test_bit d_status 2), (test_bit d_status 3),
    (test_bit d_option1 1), (test_bit d_option1 2), (test_bit d_option1 3),
    (test_bit d_option2 1), (test_bit d_option2 2), (test_bit d_option2 3).
  intros. vm_compute. repeat split.
Qed.

(** ** The parser, step by step *)

Lemma parse_frame_steps (r d0 d1 d2 d3 f s o1 o2 : Byte.byte) :
  parse_frame [r; d0; d1; d2; d3; f; s; o1; o2]
  = if test_bit (byte_val o1) 0 || test_bit (byte_val o2) 0
    then inl InvalidStatusBits
    else
      match FUNCTION !! Z.land (byte_val f) 0x0f with
      | None => inl UnknownFunction
      | Some fn =>
          match subscript fn.1.2 (Z.land (byte_val r) 0x0f) with
          | inl e => inl e
          | inr rng =>
              if test_bit (byte_val o2) 2 && test_bit (byte_val o2) 3
              then inl ConflictingCurrentType
              else inr (frame_of d0 d1 d2 d3 s o1 o2 fn rng)
          end
      end.
Proof.
  unfold parse_frame, struct_unpack_9B.
  cbn [map bind ret].
  rewrite options_loop_spec.
  set (d_status := byte_val s). set (d_option1 := byte_val o1).
  set (d_option2 := byte_val o2).
  destruct (test_bit d_option1 0 || test_bit d_option2 0); [reflexivity |].
  cbn [bind].
  destruct (FUNCTION !! Z.land (byte_val f) 15) as [fn |]; [| reflexivity].
  cbn [bind ret].
  destruct (subscript fn.1.2 (Z.land (byte_val r) 15)) as [e | rng];
    [reflexivity |].
  cbn [bind].
  destruct (flags_lookup d_status d_option1 d_option2)
    as (HJ & HS & HB & HO & HH & HMax & HMin & HDC & HAC & HAuto).
  cbv zeta in HJ, HS, HB, HO, HH, HMax, HMin, HDC, HAC, HAuto.
  unfold frame_of. fold d_status d_option1 d_option2.
  rewrite HJ, HS, HB, HO, HH, HMax, HMin, HDC, HAC, HAuto.
  clear HJ HS HB HO HH HMax HMin HDC HAC HAuto.
  destruct (String.eqb fn.1.1 "frequency"), (test_bit d_status 3);
    cbn [bind ret raise andb];
    (destruct (test_bit d_option2 2), (test_bit d_option2 3);
     cbn [bind ret raise andb]; [reflexivity | ..];
     destruct (test_bit d_option1 2), (test_bit d_option1 1);
     cbn [bind ret raise];
     destruct (test_bit d_status 0);
     cbn [negb String.eqb Ascii.eqb Bool.eqb];
     destruct (test_bit d_status 1), (test_bit d_option1 3);
     reflexivity).
Qed.

(** ** Decimal division by a power of ten is exact *)

Lemma ndigits_fuel_pos (fuel : nat) (n : Z) : 1 <= ndigits_fuel fuel n.
Proof.
  revert n. induction fuel as [| fuel IH]; intros n; cbn [ndigits_fuel].
  - lia.
  - destruct (n <? 10); [lia |]. specialize (IH (n / 10)). lia.
Qed.

Lemma ndigits_fuel_le (m : nat) (fuel : nat) (n : Z) :
  n < 10 ^ Z.of_nat (S m) -> ndigits_fuel fuel n <= Z.of_nat (S m).
Proof.
  revert m n. induction fuel as [| fuel IH]; intros m n Hn; cbn [ndigits_fuel].
  - lia.
  - destruct (Z.ltb_spec n 10) as [Hlt | Hge]; [lia |].
    destruct m as [| m].
    + change (10 ^ Z.of_nat 1) with 10 in Hn. lia.
    + assert (Hdiv : n / 10 < 10 ^ Z.of_nat (S m)).
      { apply Z.div_lt_upper_bound; [lia |].
        rewrite <- Z.pow_succ_r by lia.
        rewrite <- Nat2Z.inj_succ. exact Hn. }
      specialize (IH m (n / 10) Hdiv). lia.
Qed.

Lemma ndigits_fuel_ge (m : nat) (fuel : nat) (n : Z) :
  10 ^ Z.of_nat m <= n -> n < 2 ^ Z.of_nat fuel ->
  Z.of_nat (S m) <= ndigits_fuel fuel n.
Proof.
  revert fuel n. induction m as [| m IH]; intros fuel n Hlo Hhi.
  - pose proof (ndigits_fuel_pos fuel n). lia.
  - assert (H10 : 10 <= n).
    { rewrite Nat2Z.inj_succ, Z.pow_succ_r in Hlo by lia.
      assert (0 < 10 ^ Z.of_nat m) by (apply Z.pow_pos_nonneg; lia). lia. }
    destruct fuel as [| fuel].
    + change (2 ^ Z.of_nat 0) with 1 in Hhi. lia.
    + cbn [ndigits_fuel].
      destruct (Z.ltb_spec n 10) as [Hlt | _]; [lia |].
      assert (Hlo' : 10 ^ Z.of_nat m <= n / 10).
      { apply Z.div_le_lower_bound; [lia |].
        rewrite <- Z.pow_succ_r by lia.
        rewrite <- Nat2Z.inj_succ. exact Hlo. }
      assert (Hhi' : n / 10 < 2 ^ Z.of_nat fuel).
      { apply Z.div_lt_upper_bound; [lia |].
        rewrite Nat2Z.inj_succ, Z.pow_succ_r in Hhi by lia.
        assert (0 < 2 ^ Z.of_nat fuel) by (apply Z.pow_pos_nonneg; lia).
        lia. }
      specialize (IH fuel (n / 10) Hlo' Hhi'). lia.
Qed.

Lemma ndigits_le (m n : Z) : 1 <= m -> n < 10 ^ m -> ndigits n <= m.
Proof.
  intros Hm Hn. unfold ndigits.
  replace m with (Z.of_nat (S (Z.to_nat (m - 1)))) in * by lia.
  apply ndigits_fuel_le. exact Hn.
Qed.

Lemma ndigits_ge (k n : Z) : 0 <= k -> 10 ^ k <= n -> k + 1 <= ndigits n.
Proof.
  intros Hk Hn. unfold ndigits.
  assert (Hpos : 0 < n).
  { assert (0 < 10 ^ k) by (apply Z.pow_pos_nonneg; lia). lia. }
  replace (k + 1) with (Z.of_nat (S (Z.to_nat k))) by lia.
  apply ndigits_fuel_ge.
  - rewrite Z2Nat.id by lia. exact Hn.
  - rewrite Nat2Z.inj_succ, Z2Nat.id by apply Z.log2_nonneg.
    apply Z.log2_spec. exact Hpos.
Qed.

Lemma strip_zeros_spec (fuel : nat) (ideal_exp coeff exp : Z) :
  let r := strip_zeros fuel ideal_exp coeff exp in
  exp <= r.2 /\ (exp <= ideal_exp -> r.2 <= ideal_exp)
  /\ coeff = r.1 * 10 ^ (r.2 - exp).
Proof.
  revert coeff exp. induction fuel as [| fuel IH]; intros coeff exp;
    cbn [strip_zeros].
  - cbn. rewrite Z.sub_diag. change (10 ^ 0) with 1. lia.
  - destruct (Z.ltb_spec exp ideal_exp) as [Hlt | Hge]; cbn [andb].
    + destruct (Z.eqb_spec (coeff mod 10) 0) as [Hmod | Hmod].
      * specialize (IH (coeff / 10) (exp + 1)). cbv zeta in IH |- *.
        destruct IH as (H1 & H2 & H3).
        set (r := strip_zeros fuel ideal_exp (coeff / 10) (exp + 1)) in *.
        split; [lia |]. split; [lia |].
        replace (r.2 - exp) with (Z.succ (r.2 - (exp + 1))) by lia.
        rewrite Z.pow_succ_r by lia.
        pose proof (Z.div_mod coeff 10 ltac:(lia)) as Hdm.
        rewrite Hmod in Hdm. lia.
      * cbn. rewrite Z.sub_diag. change (10 ^ 0) with 1. lia.
    + cbn. rewrite Z.sub_diag. change (10 ^ 0) with 1. lia.
Qed.

Lemma strip_zeros_mul (j : nat) (fuel : nat) (ideal_exp coeff exp : Z) :
  exp + Z.of_nat j <= ideal_exp ->
  strip_zeros (j + fuel) ideal_exp (coeff * 10 ^ Z.of_nat j) exp
  = strip_zeros fuel ideal_exp coeff (exp + Z.of_nat j).
Proof.
  revert exp. induction j as [| j IH]; intros exp Hj.
  - cbn [Nat.add]. change (10 ^ Z.of_nat 0) with 1.
    rewrite Z.mul_1_r. f_equal. lia.
  - cbn [Nat.add strip_zeros].
    destruct (Z.ltb_spec exp ideal_exp) as [_ | Hge]; [| lia]. cbn [andb].
    rewrite Nat2Z.inj_succ, Z.pow_succ_r by lia.
    replace (coeff * (10 * 10 ^ Z.of_nat j))
      with (coeff * 10 ^ Z.of_nat j * 10) by lia.
    rewrite Z.mod_mul by lia. cbn [Z.eqb].
    rewrite Z.div_mul by lia.
    rewrite IH by lia. f_equal. lia.
Qed.

Lemma div_eucl_div_mod (a b : Z) : Z.div_eucl a b = (a / b, a mod b).
Proof. unfold Z.div, Z.modulo. destruct (Z.div_eucl a b). reflexivity. Qed.

Lemma dec_fix_small (s : bool) (c e : Z) :
  c < 10 ^ prec -> dec_fix (mkDecimal s c e) = mkDecimal s c e.
Proof.
  intros Hc. unfold dec_fix. cbn [dec_int].
  destruct (Z.eqb_spec c 0) as [-> | _]; [reflexivity |]. cbn [orb].
  destruct (Z.leb_spec (ndigits c) prec) as [_ | Hgt]; [reflexivity |].
  pose proof (ndigits_le prec c ltac:(unfold prec; lia) Hc). lia.
Qed.

(** [Decimal(n) / 10**k] for an int [n] of at most [prec] digits: the
    coefficient and exponent that come out hold [n / 10^k] exactly. *)
Lemma dec_div_pow10 (n k : Z) :
  Z.abs n < 10 ^ prec -> 0 <= k ->
  exists c e,
    dec_div_int (Decimal_of_int n) (10 ^ k) = mkDecimal (n <? 0) c e
    /\ - k <= e <= 0 /\ Z.abs n = c * 10 ^ (e + k).
Proof.
  intros Hn Hk.
  assert (Hpk : 0 < 10 ^ k) by (apply Z.pow_pos_nonneg; lia).
  unfold dec_div_int, dec_div, Decimal_of_int.
  cbn [dec_sign dec_int dec_exp].
  replace (10 ^ k <? 0) with false by (symmetry; apply Z.ltb_ge; lia).
  rewrite xorb_false_r, (Z.abs_eq (10 ^ k)) by lia.
  change (0 - 0) with 0.
  destruct (Z.eqb_spec (Z.abs n) 0) as [H0 | Hne].
  - exists 0, 0. rewrite dec_fix_small by (apply Z.pow_pos_nonneg; unfold prec; lia).
    split; [reflexivity |]. split; [lia |]. lia.
  - set (a := Z.abs n) in *.
    assert (Ha : 0 < a) by lia.
    pose proof (ndigits_ge k (10 ^ k) Hk ltac:(lia)) as Hdk.
    pose proof (ndigits_le prec a ltac:(unfold prec; lia) Hn) as Hda.
    set (shift := ndigits (10 ^ k) - ndigits a + prec + 1).
    assert (Hshift : k + 2 <= shift) by (unfold shift; lia).
    destruct (Z.leb_spec 0 shift) as [_ | Hneg]; [| lia].
    replace (a * 10 ^ shift) with (a * 10 ^ (shift - k) * 10 ^ k).
    2:{ rewrite <- Z.mul_assoc, <- Z.pow_add_r by lia. do 2 f_equal. lia. }
    rewrite div_eucl_div_mod, Z.div_mul, Z.mod_mul by lia.
    cbn [Z.eqb negb].
    replace (Z.to_nat (0 - (0 - shift)))
      with (Z.to_nat (shift - k) + Z.to_nat k)%nat by lia.
    replace (a * 10 ^ (shift - k))
      with (a * 10 ^ Z.of_nat (Z.to_nat (shift - k)))
      by (rewrite Z2Nat.id by lia; reflexivity).
    rewrite strip_zeros_mul by lia.
    rewrite Z2Nat.id by lia.
    replace (0 - shift + (shift - k)) with (- k) by lia.
    pose proof (strip_zeros_spec (Z.to_nat k) 0 a (- k)) as Hs.
    cbv zeta in Hs.
    destruct (strip_zeros (Z.to_nat k) 0 a (- k)) as [c e].
    cbn [fst snd] in Hs. destruct Hs as (He1 & He2 & Hc).
    specialize (He2 ltac:(lia)).
    replace (e - - k) with (e + k) in Hc by lia.
    assert (Hpe : 0 < 10 ^ (e + k)) by (apply Z.pow_pos_nonneg; lia).
    assert (Hcle : c <= a) by nia.
    exists c, e. rewrite dec_fix_small by lia.
    split; [reflexivity |]. split; [lia |]. exact Hc.
Qed.

(** In numbers: the quotient times [10^k] is [n]. *)
Lemma dec_div_pow10_exact (n k : Z) :
  Z.abs n < 10 ^ prec -> 0 <= k ->
  (dec_Q (dec_div_int (Decimal_of_int n) (10 ^ k)) * inject_Z (10 ^ k)
   == inject_Z n)%Q.
Proof.
  intros Hn Hk.
  destruct (dec_div_pow10 n k Hn Hk) as (c & e & -> & He & Hc).
  unfold dec_Q. cbn [dec_sign dec_int dec_exp].
  rewrite (Zpower_Qpower 10 k) by lia.
  rewrite <- Qmult_assoc, <- Qpower_plus by discriminate.
  rewrite <- Zpower_Qpower by lia.
  rewrite <- inject_Z_mult.
  apply inject_Z_injective.
  destruct (Z.ltb_spec n 0); lia.
Qed.

(** ** Nibbles, digits and tables *)

Lemma land_15_bound (x : Z) : 0 <= Z.land x 0x0f <= 15.
Proof.
  change (Z.land x 0x0f) with (Z.land x (Z.ones 4)).
  rewrite Z.land_ones by lia. change (2 ^ 4) with 16.
  pose proof (Z.mod_pos_bound x 16 ltac:(lia)). lia.
Qed.

Lemma sum_digits_4 (a b c d : Z) :
  sum_digits [a; b; c; d] = a * 10 ^ 3 + b * 10 ^ 2 + c * 10 ^ 1 + d * 10 ^ 0.
Proof. unfold sum_digits. cbn. lia. Qed.

Lemma FUNCTION_entries (code : Z) (fn : function_entry) :
  FUNCTION !! code = Some fn ->
  (code, fn) ∈
    [ (0x01, ("diode", Some RANGE_DIODE, "V"));
      (0x02, ("frequency", Some RANGE_FREQUENCY, "Hz"));
      (0x03, ("resistance", Some RANGE_RESISTANCE, "Ω"));
      (0x04, ("temperature", None, "deg"));
      (0x05, ("continuity", Some RANGE_CONTINUITY, "Ω"));
      (0x06, ("capacitance", Some RANGE_CAPACITANCE, "F"));
      (0x09, ("current", Some RANGE_CURRENT_10A, "A"));
      (0x0b, ("voltage", Some RANGE_VOLTAGE, "V"));
      (0x0d, ("current", Some RANGE_CURRENT_AUTO_UA, "A"));
      (0x0e, ("current gain", Some RANGE_HFE, EmptyString));
      (0x0f, ("current", Some RANGE_CURRENT_AUTO_MA, "A")) ].
Proof. intros H. apply elem_of_list_to_map_2. exact H. Qed.

Lemma subscript_elem (table : option (list range_entry)) (i : Z)
    (rng : range_entry) :
  subscript table i = inr rng -> exists l, table = Some l /\ rng ∈ l.
Proof.
  unfold subscript. destruct table as [l |]; [| discriminate].
  destruct (l !! Z.to_nat i) as [e |] eqn:Hl; [| discriminate].
  intros [= ->]. exists l. split; [reflexivity |].
  apply list_elem_of_lookup. eauto.
Qed.

(** Every range entry of the registry puts the decimal point at a digit
    position between 0 and 3. *)
Lemma resolved_dp_bound (code i : Z) (fn : function_entry) (rng : range_entry) :
  FUNCTION !! code = Some fn -> subscript fn.1.2 i = inr rng ->
  0 <= dp_digit_position rng <= 3.
Proof.
  intros Hfn Hrng. apply FUNCTION_entries in Hfn.
  apply subscript_elem in Hrng as (l & Hl & Hin).
  elem_cases Hfn; injection Hfn as _ ->; cbn in Hl;
    try discriminate; injection Hl as <-;
    elem_cases Hin; subst rng; cbn; lia.
Qed.

(** ** When the parser succeeds *)

Lemma getitem_inr (options : gmap slot bool) (key : string) (b : bool) :
  getitem options key = inr b <-> options !! name key = Some b.
Proof.
  unfold getitem. destruct (options !! name key) as [b' |]; cbn.
  - split; intros [= ->]; reflexivity.
  - split; discriminate.
Qed.

Lemma parse_frame_inr (r d0 d1 d2 d3 f s o1 o2 : Byte.byte) (fr : frame) :
  parse_frame [r; d0; d1; d2; d3; f; s; o1; o2] = inr fr <->
  exists fn rng,
    test_bit (byte_val o1) 0 = false /\ test_bit (byte_val o2) 0 = false
    /\ FUNCTION !! Z.land (byte_val f) 0x0f = Some fn
    /\ subscript fn.1.2 (Z.land (byte_val r) 0x0f) = inr rng
    /\ test_bit (byte_val o2) 2 && test_bit (byte_val o2) 3 = false
    /\ fr = frame_of d0 d1 d2 d3 s o1 o2 fn rng.
Proof.
  rewrite parse_frame_steps. split.
  - destruct (test_bit (byte_val o1) 0); [discriminate |].
    destruct (test_bit (byte_val o2) 0); [discriminate |]. cbn [orb].
    destruct (FUNCTION !! Z.land (byte_val f) 15) as [fn |]; [| discriminate].
    destruct (subscript fn.1.2 (Z.land (byte_val r) 15)) as [e | rng]
      eqn:Hrng; [discriminate |].
    destruct (test_bit (byte_val o2) 2 && test_bit (byte_val o2) 3);
      [discriminate |].
    intros [= <-]. exists fn, rng. repeat split. exact Hrng.
  - intros (fn & rng & -> & -> & -> & -> & -> & ->). reflexivity.
Qed.

Lemma parse_inr (packet : list Byte.byte) (m : Measurement) :
  parse packet = inr m <->
  exists fr, parse_frame packet = inr fr /\ m = results fr.
Proof.
  unfold parse. destruct (parse_frame packet) as [e | fr]; cbn [bind ret].
  - split; [discriminate | intros (fr & [=] & _)].
  - split.
    + intros [= <-]. exists fr. split; reflexivity.
    + intros (fr' & [= <-] & ->). reflexivity.
Qed.

Lemma parse_inl (packet : list Byte.byte) (e : error) :
  parse packet = inl e <-> parse_frame packet = inl e.
Proof.
  unfold parse. destruct (parse_frame packet) as [e' | fr]; cbn [bind ret].
  - split; intros [= ->]; reflexivity.
  - split; discriminate.
Qed.

Lemma frame_of_m_range_dp (d0 d1 d2 d3 s o1 o2 : Byte.byte) (code i : Z)
    (fn : function_entry) (rng : range_entry) :
  FUNCTION !! code = Some fn -> subscript fn.1.2 i = inr rng ->
  0 <= dp_digit_position (f_m_range (frame_of d0 d1 d2 d3 s o1 o2 fn rng)) <= 3.
Proof.
  intros Hfn Hrng. pose proof (resolved_dp_bound code i fn rng Hfn Hrng).
  unfold frame_of. cbn [f_m_range].
  destruct (String.eqb fn.1.1 "frequency" && test_bit (byte_val s) 3);
    cbn [dp_digit_position]; lia.
Qed.

Lemma digits_integer_bound (d0 d1 d2 d3 : Byte.byte) :
  0 <= digits_integer d0 d1 d2 d3 <= 16665.
Proof.
  unfold digits_integer.
  pose proof (land_15_bound (byte_val d0)).
  pose proof (land_15_bound (byte_val d1)).
  pose proof (land_15_bound (byte_val d2)).
  pose proof (land_15_bound (byte_val d3)). lia.
Qed.

Lemma frame_of_display_value (d0 d1 d2 d3 s o1 o2 : Byte.byte)
    (fn : function_entry) (rng : range_entry) :
  let fr := frame_of d0 d1 d2 d3 s o1 o2 fn rng in
  let n := digits_integer d0 d1 d2 d3 in
  f_display_value fr
  = if test_bit (byte_val s) 0 then None
    else Some (dec_div_int
                 (Decimal_of_int (if test_bit (byte_val s) 2 then - n else n))
                 (10 ^ dp_digit_position (f_m_range fr))).
Proof.
  cbv zeta. unfold frame_of. cbn [f_display_value f_m_range map].
  rewrite sum_digits_4. unfold digits_integer.
  destruct (test_bit (byte_val s) 0); [reflexivity |].
  do 3 f_equal. destruct (test_bit (byte_val s) 2); lia.
Qed.

(** * The claims *)

(** C1: for a packet that parses with operation "normal", display_value
    times 10^decimal_point_position of the range descriptor in force (the
    one of the table, or the forced one of the duty-cycle override) is the
    integer spelled by the four digit nibbles, negated when SIGN is set:
    the Decimal holds the quotient exactly. *)
Theorem display_value_roundtrip (r d0 d1 d2 d3 f s o1 o2 : Byte.byte)
    (m : Measurement) :
  parse [r; d0; d1; d2; d3; f; s; o1; o2] = inr m ->
  res_operation m = "normal" ->
  exists (fr : frame) (dv : Decimal) (sgn : bool),
    parse_frame [r; d0; d1; d2; d3; f; s; o1; o2] = inr fr
    /\ m = results fr
    /\ f_options fr !! name "SIGN" = Some sgn
    /\ res_display_value m = Some dv
    /\ (dec_Q dv * inject_Z (10 ^ dp_digit_position (f_m_range fr))
        == inject_Z (if sgn then - digits_integer d0 d1 d2 d3
                     else digits_integer d0 d1 d2 d3))%Q.
Proof.
  intros Hparse Hop.
  apply parse_inr in Hparse as (fr & Hfr & ->).
  pose proof Hfr as Hfr'.
  apply parse_frame_inr in Hfr' as (fn & rng & Ho1 & Ho2 & Hfn & Hrng & Hacdc & ->).
  pose proof (frame_of_display_value d0 d1 d2 d3 s o1 o2 fn rng) as Hdv.
  pose proof (frame_of_m_range_dp d0 d1 d2 d3 s o1 o2 _ _ fn rng Hfn Hrng) as Hdp.
  cbv zeta in Hdv.
  set (fr := frame_of d0 d1 d2 d3 s o1 o2 fn rng) in *.
  assert (Hol : test_bit (byte_val s) 0 = false).
  { destruct (test_bit (byte_val s) 0) eqn:E; [| reflexivity].
    unfold fr, frame_of in Hop. cbn [results res_operation f_operation] in Hop.
    rewrite E in Hop. discriminate. }
  rewrite Hol in Hdv.
  exists fr, (dec_div_int
                (Decimal_of_int (if test_bit (byte_val s) 2
                                 then - digits_integer d0 d1 d2 d3
                                 else digits_integer d0 d1 d2 d3))
                (10 ^ dp_digit_position (f_m_range fr))),
    (test_bit (byte_val s) 2).
  split; [exact Hfr |]. split; [reflexivity |].
  split.
  { destruct (flags_lookup (byte_val s) (byte_val o1) (byte_val o2))
      as (_ & HS & _).
    apply getitem_inr in HS. exact HS. }
  split; [exact Hdv |].
  apply dec_div_pow10_exact; [| lia].
  pose proof (digits_integer_bound d0 d1 d2 d3).
  assert (16665 < 10 ^ prec) by reflexivity.
  destruct (test_bit (byte_val s) 2); lia.
Qed.

Lemma display_value_roundtrip_witness :
  exists (fr : frame) (dv : Decimal) (sgn : bool),
    parse_frame scenario_1_packet = inr fr
    /\ scenario_1_results = results fr
    /\ f_options fr !! name "SIGN" = Some sgn
    /\ res_display_value scenario_1_results = Some dv
    /\ (dec_Q dv * inject_Z (10 ^ dp_digit_position (f_m_range fr))
        == inject_Z (if sgn
                     then - digits_integer Byte.x06 Byte.x00 Byte.x00 Byte.x00
                     else digits_integer Byte.x06 Byte.x00 Byte.x00 Byte.x00))%Q.
Proof.
  apply (display_value_roundtrip Byte.x00 Byte.x06 Byte.x00 Byte.x00 Byte.x00
           Byte.x0b Byte.x00 Byte.x00 Byte.x08 scenario_1_results);
    vm_compute; reflexivity.
Defined.

(** The status byte with its OL bit (bit 0) cleared keeps bits 1 to 3. *)
Lemma test_bit_clear_0 (x y i : Z) :
  y = Z.land x 0xfe -> 0 <= i ->
  test_bit y i = if i =? 0 then false else if i <? 8 then test_bit x i else false.
Proof.
  intros -> Hi. rewrite !test_bit_testbit by assumption.
  rewrite Z.land_spec.
  destruct (Z.eqb_spec i 0) as [-> | Hne].
  - apply andb_false_r.
  - destruct (Z.ltb_spec i 8) as [Hlt | Hge].
    + assert (Hc : i = 1 \/ i = 2 \/ i = 3 \/ i = 4 \/ i = 5 \/ i = 6 \/ i = 7)
        by lia.
      destruct Hc as [-> | [-> | [-> | [-> | [-> | [-> | ->]]]]]];
        apply andb_true_r.
    + replace (Z.testbit 254 i) with false; [apply andb_false_r |].
      symmetry. apply (Z.bits_above_log2 254 i); [lia |].
      change (Z.log2 254) with 7. lia.
Qed.

(** C2: a packet with OL set that parses gives operation "overload" with
    value and display_value empty, whatever the four digit bytes are; every
    other field is the one of the same packet with OL cleared, which then
    parses with operation "normal". *)
Theorem overload_suppression (r d0 d1 d2 d3 f s s' o1 o2 : Byte.byte)
    (m : Measurement) :
  test_bit (byte_val s) 0 = true ->
  byte_val s' = Z.land (byte_val s) 0xfe ->
  parse [r; d0; d1; d2; d3; f; s; o1; o2] = inr m ->
  res_operation m = "overload"
  /\ res_value m = None
  /\ res_display_value m = None
  /\ (forall e0 e1 e2 e3 : Byte.byte,
        parse [r; e0; e1; e2; e3; f; s; o1; o2] = inr m)
  /\ exists m',
       parse [r; d0; d1; d2; d3; f; s'; o1; o2] = inr m'
       /\ res_operation m' = "normal"
       /\ m = {| res_value := None;
                 res_unit := res_unit m';
                 res_display_value := None;
                 res_display_unit := res_display_unit m';
                 res_mode := res_mode m';
                 res_current := res_current m';
                 res_peak := res_peak m';
                 res_hold := res_hold m';
                 res_range := res_range m';
                 res_operation := "overload";
                 res_battery_low := res_battery_low m' |}.
Proof.
  intros Hol Hs' Hparse.
  apply parse_inr in Hparse as (fr & Hfr & ->).
  apply parse_frame_inr in Hfr as (fn & rng & Ho1 & Ho2 & Hfn & Hrng & Hacdc & ->).
  assert (Hm : results (frame_of d0 d1 d2 d3 s o1 o2 fn rng)
               = {| res_value := None;
                    res_unit := f_unit (frame_of d0 d1 d2 d3 s o1 o2 fn rng);
                    res_display_value := None;
                    res_display_unit :=
                      f_display_unit (frame_of d0 d1 d2 d3 s o1 o2 fn rng);
                    res_mode := f_mode (frame_of d0 d1 d2 d3 s o1 o2 fn rng);
                    res_current :=
                      f_current (frame_of d0 d1 d2 d3 s o1 o2 fn rng);
                    res_peak := f_peak (frame_of d0 d1 d2 d3 s o1 o2 fn rng);
                    res_hold := f_hold (frame_of d0 d1 d2 d3 s o1 o2 fn rng);
                    res_range := f_mrange (frame_of d0 d1 d2 d3 s o1 o2 fn rng);
                    res_operation := "overload";
                    res_battery_low :=
                      f_battery_low (frame_of d0 d1 d2 d3 s o1 o2 fn rng) |}).
  { unfold results, frame_of. cbn -[flags sum_digits dec_div_int].
    rewrite Hol. reflexivity. }
  split; [rewrite Hm; reflexivity |].
  split; [rewrite Hm; reflexivity |].
  split; [rewrite Hm; reflexivity |].
  split.
  - intros e0 e1 e2 e3. apply parse_inr.
    exists (frame_of e0 e1 e2 e3 s o1 o2 fn rng). split.
    + apply parse_frame_inr. exists fn, rng. repeat split; assumption.
    + unfold results, frame_of. cbn -[flags sum_digits dec_div_int].
      rewrite Hol. reflexivity.
  - exists (results (frame_of d0 d1 d2 d3 s' o1 o2 fn rng)).
    assert (H0 : test_bit (byte_val s') 0 = false)
      by (rewrite (test_bit_clear_0 (byte_val s) _ 0 Hs'); [reflexivity | lia]).
    assert (H1 : test_bit (byte_val s') 1 = test_bit (byte_val s) 1)
      by (rewrite (test_bit_clear_0 (byte_val s) _ 1 Hs'); [reflexivity | lia]).
    assert (H3 : test_bit (byte_val s') 3 = test_bit (byte_val s) 3)
      by (rewrite (test_bit_clear_0 (byte_val s) _ 3 Hs'); [reflexivity | lia]).
    split.
    + apply parse_inr. eexists. split; [| reflexivity].
      apply parse_frame_inr. exists fn, rng. repeat split; assumption.
    + unfold results, frame_of. cbn -[flags sum_digits dec_div_int].
      rewrite H0, H1, H3, Hol. split; reflexivity.
Qed.

Lemma overload_suppression_witness :
  parse scenario_2_packet = inr scenario_2_results
  /\ res_operation scenario_2_results = "overload"
  /\ res_value scenario_2_results = None
  /\ res_display_value scenario_2_results = None
  /\ (forall e0 e1 e2 e3 : Byte.byte,
        parse [Byte.x00; e0; e1; e2; e3; Byte.x0b; Byte.x01; Byte.x00; Byte.x08]
        = inr scenario_2_results)
  /\ exists m',
       parse scenario_1_packet = inr m'
       /\ res_operation m' = "normal"
       /\ scenario_2_results
          = {| res_value := None;
               res_unit := res_unit m';
               res_display_value := None;
               res_display_unit := res_display_unit m';
               res_mode := res_mode m';
               res_current := res_current m';
               res_peak := res_peak m';
               res_hold := res_hold m';
               res_range := res_range m';
               res_operation := "overload";
               res_battery_low := res_battery_low m' |}.
Proof.
  split; [vm_compute; reflexivity |].
  apply (overload_suppression Byte.x00 Byte.x06 Byte.x00 Byte.x00 Byte.x00
           Byte.x0b Byte.x01 Byte.x00 Byte.x00 Byte.x08 scenario_2_results);
    vm_compute; reflexivity.
Defined.

(** C3, as the spec states it, fails: with function code 0x02 and JUDGE
    set, range byte 5 is looked up in RANGE_FREQUENCY (five entries) before
    the override and the lookup raises. *)
Lemma duty_cycle_any_range_counterexample :
  Z.land (byte_val Byte.x02) 0x0f = 0x02
  /\ test_bit (byte_val Byte.x08) 3 = true
  /\ parse [Byte.x05; Byte.x06; Byte.x00; Byte.x00; Byte.x00;
            Byte.x02; Byte.x08; Byte.x00; Byte.x00] = inl UnknownRange
  /\ ~ exists m,
         parse [Byte.x05; Byte.x06; Byte.x00; Byte.x00; Byte.x00;
                Byte.x02; Byte.x08; Byte.x00; Byte.x00] = inr m.
Proof.
  assert (H : parse [Byte.x05; Byte.x06; Byte.x00; Byte.x00; Byte.x00;
                     Byte.x02; Byte.x08; Byte.x00; Byte.x00] = inl UnknownRange)
    by (vm_compute; reflexivity).
  repeat split; try reflexivity; try exact H.
  intros (m & Hm). rewrite H in Hm. discriminate.
Qed.

Lemma subscript_RANGE_FREQUENCY (i : Z) :
  0 <= i < 5 -> exists rng, subscript (Some RANGE_FREQUENCY) i = inr rng.
Proof.
  intros Hi.
  assert (Hc : i = 0 \/ i = 1 \/ i = 2 \/ i = 3 \/ i = 4) by lia.
  destruct Hc as [-> | [-> | [-> | [-> | ->]]]]; eexists; reflexivity.
Qed.

(** C3, amended: with function code 0x02 and JUDGE set, a packet whose
    fixed-zero bits are clear, whose AC and DC flags are not both set and
    whose range nibble indexes RANGE_FREQUENCY (0 to 4) parses with mode
    "duty_cycle", unit "%" and the range descriptor (1e0, 1, "%"); the
    result is the same for every such range byte. *)
Theorem duty_cycle_override (r d0 d1 d2 d3 f s o1 o2 : Byte.byte) :
  Z.land (byte_val f) 0x0f = 0x02 ->
  test_bit (byte_val s) 3 = true ->
  test_bit (byte_val o1) 0 = false ->
  test_bit (byte_val o2) 0 = false ->
  test_bit (byte_val o2) 2 && test_bit (byte_val o2) 3 = false ->
  Z.land (byte_val r) 0x0f < 5 ->
  exists fr,
    parse_frame [r; d0; d1; d2; d3; f; s; o1; o2] = inr fr
    /\ parse [r; d0; d1; d2; d3; f; s; o1; o2] = inr (results fr)
    /\ f_mode fr = "duty_cycle"
    /\ f_unit fr = "%"
    /\ f_m_range fr = RangeEntry 0 1 "%"
    /\ res_mode (results fr) = "duty_cycle"
    /\ res_unit (results fr) = "%"
    /\ res_display_unit (results fr) = "%"
    /\ forall r' : Byte.byte,
         Z.land (byte_val r') 0x0f < 5 ->
         parse [r'; d0; d1; d2; d3; f; s; o1; o2] = inr (results fr).
Proof.
  intros Hf Hj Ho1 Ho2 Hacdc Hr.
  set (fn := ("frequency", Some RANGE_FREQUENCY, "Hz") : function_entry).
  assert (Hfn : FUNCTION !! Z.land (byte_val f) 0x0f = Some fn)
    by (rewrite Hf; reflexivity).
  assert (Hfr : forall (r' : Byte.byte) (rng rng' : range_entry),
             frame_of d0 d1 d2 d3 s o1 o2 fn rng'
             = frame_of d0 d1 d2 d3 s o1 o2 fn rng).
  { intros r' rng rng'. unfold frame_of, fn.
    cbn -[flags sum_digits dec_div_int]. rewrite Hj. reflexivity. }
  assert (Hany : forall r' : Byte.byte,
             Z.land (byte_val r') 0x0f < 5 ->
             exists rng, parse_frame [r'; d0; d1; d2; d3; f; s; o1; o2]
                         = inr (frame_of d0 d1 d2 d3 s o1 o2 fn rng)).
  { intros r' Hr'. pose proof (land_15_bound (byte_val r')) as Hb.
    destruct (subscript_RANGE_FREQUENCY (Z.land (byte_val r') 0x0f))
      as (rng & Hrng); [lia |].
    exists rng. apply parse_frame_inr. exists fn, rng. repeat split; assumption. }
  destruct (Hany r Hr) as (rng & Hp).
  exists (frame_of d0 d1 d2 d3 s o1 o2 fn rng).
  split; [exact Hp |].
  split; [apply parse_inr; eexists; split; [exact Hp | reflexivity] |].
  assert (Hfields :
            f_mode (frame_of d0 d1 d2 d3 s o1 o2 fn rng) = "duty_cycle"
            /\ f_unit (frame_of d0 d1 d2 d3 s o1 o2 fn rng) = "%"
            /\ f_m_range (frame_of d0 d1 d2 d3 s o1 o2 fn rng)
               = RangeEntry 0 1 "%"
            /\ f_display_unit (frame_of d0 d1 d2 d3 s o1 o2 fn rng) = "%").
  { unfold frame_of, fn. cbn -[flags sum_digits dec_div_int].
    rewrite Hj. repeat split. }
  destruct Hfields as (Hmode & Hunit & Hrange & Hdu).
  repeat (split; [assumption |]).
  intros r' Hr'. destruct (Hany r' Hr') as (rng' & Hp').
  apply parse_inr. eexists. split; [exact Hp' |].
  rewrite (Hfr r' rng rng'). reflexivity.
Qed.

Lemma duty_cycle_override_witness :
  exists fr,
    parse_frame [Byte.x04; Byte.x01; Byte.x02; Byte.x03; Byte.x04;
                 Byte.x02; Byte.x08; Byte.x00; Byte.x00] = inr fr
    /\ parse [Byte.x04; Byte.x01; Byte.x02; Byte.x03; Byte.x04;
              Byte.x02; Byte.x08; Byte.x00; Byte.x00] = inr (results fr)
    /\ f_mode fr = "duty_cycle"
    /\ f_unit fr = "%"
    /\ f_m_range fr = RangeEntry 0 1 "%"
    /\ res_mode (results fr) = "duty_cycle"
    /\ res_unit (results fr) = "%"
    /\ res_display_unit (results fr) = "%"
    /\ forall r' : Byte.byte,
         Z.land (byte_val r') 0x0f < 5 ->
         parse [r'; Byte.x01; Byte.x02; Byte.x03; Byte.x04;
                Byte.x02; Byte.x08; Byte.x00; Byte.x00] = inr (results fr).
Proof.
  apply (duty_cycle_override Byte.x04 Byte.x01 Byte.x02 Byte.x03 Byte.x04
           Byte.x02 Byte.x08 Byte.x00 Byte.x00); vm_compute; reflexivity.
Defined.

(** C4, as the spec states it, fails: with AC and DC both set and the
    unregistered function code 0x0a, the function lookup raises first (a
    KeyError, not the ValueError of the AC/DC check). *)
Lemma conflicting_current_counterexample :
  test_bit (byte_val Byte.x0c) 2 = true
  /\ test_bit (byte_val Byte.x0c) 3 = true
  /\ parse [Byte.x00; Byte.x06; Byte.x00; Byte.x00; Byte.x00;
            Byte.x0a; Byte.x00; Byte.x00; Byte.x0c] = inl UnknownFunction
  /\ parse [Byte.x00; Byte.x06; Byte.x00; Byte.x00; Byte.x00;
            Byte.x0a; Byte.x00; Byte.x00; Byte.x0c]
     <> inl ConflictingCurrentType
  /\ py_exception UnknownFunction <> py_exception ConflictingCurrentType.
Proof.
  assert (H : parse [Byte.x00; Byte.x06; Byte.x00; Byte.x00; Byte.x00;
                     Byte.x0a; Byte.x00; Byte.x00; Byte.x0c]
              = inl UnknownFunction) by (vm_compute; reflexivity).
  repeat split; try reflexivity; try exact H.
  - rewrite H. discriminate.
  - discriminate.
Qed.

(** C4, amended: a packet with AC and DC both set never parses; the error
    is ConflictingCurrentType once the status bytes decode and the function
    and range lookups succeed (an earlier step that fails raises its own
    error first).  A packet that parses has current "DC" when only DC is
    set, "AC" when only AC is set, and None when neither is. *)
Theorem current_type_resolution (r d0 d1 d2 d3 f s o1 o2 : Byte.byte) :
  (test_bit (byte_val o2) 2 = true -> test_bit (byte_val o2) 3 = true ->
   (exists e, parse [r; d0; d1; d2; d3; f; s; o1; o2] = inl e)
   /\ forall (options : gmap slot bool) (fn : function_entry)
             (rng : range_entry),
        options_loop (zip [byte_val s; byte_val o1; byte_val o2]
                          [STATUS; OPTION1; OPTION2]) ∅ = inr options ->
        FUNCTION !! Z.land (byte_val f) 0x0f = Some fn ->
        subscript fn.1.2 (Z.land (byte_val r) 0x0f) = inr rng ->
        parse [r; d0; d1; d2; d3; f; s; o1; o2] = inl ConflictingCurrentType)
  /\ forall m : Measurement,
       parse [r; d0; d1; d2; d3; f; s; o1; o2] = inr m ->
       (test_bit (byte_val o2) 3 = true -> test_bit (byte_val o2) 2 = false ->
        res_current m = Some "DC")
       /\ (test_bit (byte_val o2) 2 = true -> test_bit (byte_val o2) 3 = false ->
           res_current m = Some "AC")
       /\ (test_bit (byte_val o2) 2 = false -> test_bit (byte_val o2) 3 = false ->
           res_current m = None).
Proof.
  split.
  - intros Hac Hdc. split.
    + destruct (parse [r; d0; d1; d2; d3; f; s; o1; o2]) as [e | m] eqn:Hp;
        [exists e; reflexivity |].
      apply parse_inr in Hp as (fr & Hfr & _).
      apply parse_frame_inr in Hfr as (fn & rng & _ & _ & _ & _ & Hacdc & _).
      rewrite Hac, Hdc in Hacdc. discriminate.
    + intros options fn rng Hopt Hfn Hrng.
      apply parse_inl. rewrite parse_frame_steps.
      rewrite options_loop_spec in Hopt.
      destruct (test_bit (byte_val o1) 0 || test_bit (byte_val o2) 0);
        [discriminate |].
      rewrite Hfn, Hrng, Hac, Hdc. reflexivity.
  - intros m Hp.
    apply parse_inr in Hp as (fr & Hfr & ->).
    apply parse_frame_inr in Hfr as (fn & rng & _ & _ & _ & _ & _ & ->).
    unfold results, frame_of. cbn [res_current f_current].
    repeat split; intros H1 H2; rewrite ?H1, ?H2; reflexivity.
Qed.

Lemma current_type_resolution_witness :
  parse [Byte.x00; Byte.x06; Byte.x00; Byte.x00; Byte.x00;
         Byte.x0b; Byte.x00; Byte.x00; Byte.x0c] = inl ConflictingCurrentType
  /\ res_current scenario_1_results = Some "DC".
Proof.
  pose proof (current_type_resolution Byte.x00 Byte.x06 Byte.x00 Byte.x00
                Byte.x00 Byte.x0b Byte.x00 Byte.x00 Byte.x0c) as [Hboth _].
  pose proof (current_type_resolution Byte.x00 Byte.x06 Byte.x00 Byte.x00
                Byte.x00 Byte.x0b Byte.x00 Byte.x00 Byte.x08) as [_ Hone].
  split.
  - destruct (Hboth eq_refl eq_refl) as [_ Herr].
    apply (Herr (flags 0 0 12) ("voltage", Some RANGE_VOLTAGE, "V")
                (RangeEntry 0 3 "V")); reflexivity.
  - destruct (Hone scenario_1_results) as (Hdc & _ & _);
      [vm_compute; reflexivity |].
    apply Hdc; reflexivity.
Defined.

(** C5: a packet whose option1_byte or option2_byte has bit 0 set fails in
    the flag decoding with InvalidStatusBits (the ValueError of get_bits),
    whatever the other bytes are; the function and range lookups are not
    reached and no Measurement is returned. *)
Theorem fixed_zero_bit_rejected (r d0 d1 d2 d3 f s o1 o2 : Byte.byte) :
  test_bit (byte_val o1) 0 = true \/ test_bit (byte_val o2) 0 = true ->
  options_loop (zip [byte_val s; byte_val o1; byte_val o2]
                    [STATUS; OPTION1; OPTION2]) ∅ = inl InvalidStatusBits
  /\ parse_frame [r; d0; d1; d2; d3; f; s; o1; o2] = inl InvalidStatusBits
  /\ parse [r; d0; d1; d2; d3; f; s; o1; o2] = inl InvalidStatusBits
  /\ (forall m, parse [r; d0; d1; d2; d3; f; s; o1; o2] <> inr m)
  /\ py_exception InvalidStatusBits = "ValueError".
Proof.
  intros Hbit.
  assert (Hor : test_bit (byte_val o1) 0 || test_bit (byte_val o2) 0 = true)
    by (destruct Hbit as [-> | ->]; [reflexivity | apply orb_true_r]).
  assert (Hfr : parse_frame [r; d0; d1; d2; d3; f; s; o1; o2]
                = inl InvalidStatusBits)
    by (rewrite parse_frame_steps, Hor; reflexivity).
  assert (Hp : parse [r; d0; d1; d2; d3; f; s; o1; o2] = inl InvalidStatusBits)
    by (apply parse_inl; exact Hfr).
  split; [rewrite options_loop_spec, Hor; reflexivity |].
  split; [exact Hfr |]. split; [exact Hp |].
  split; [intros m Hm; rewrite Hp in Hm; discriminate | reflexivity].
Qed.

Lemma fixed_zero_bit_rejected_witness :
  parse [Byte.x00; Byte.x06; Byte.x00; Byte.x00; Byte.x00;
         Byte.x0b; Byte.x00; Byte.x01; Byte.x08] = inl InvalidStatusBits.
Proof.
  apply (fixed_zero_bit_rejected Byte.x00 Byte.x06 Byte.x00 Byte.x00 Byte.x00
           Byte.x0b Byte.x00 Byte.x01 Byte.x08).
  left. reflexivity.
Defined.

Lemma FUNCTION_registered (code : Z) :
  is_Some (FUNCTION !! code) <-> In code registered_codes.
Proof.
  split.
  - intros [fn Hfn]. apply FUNCTION_entries in Hfn.
    elem_cases Hfn; injection Hfn as -> _; cbn; tauto.
  - intros Hin. cbn in Hin.
    repeat (destruct Hin as [<- | Hin]; [eexists; reflexivity |]).
    destruct Hin.
Qed.

(** C6: once the status bytes decode, a function nibble that is not one of
    0x01-0x06, 0x09, 0x0b, 0x0d, 0x0e, 0x0f makes parse fail with
    UnknownFunction (the KeyError of the FUNCTION lookup); 0x0a is such a
    nibble. *)
Theorem unknown_function_rejected (r d0 d1 d2 d3 f s o1 o2 : Byte.byte)
    (options : gmap slot bool) :
  options_loop (zip [byte_val s; byte_val o1; byte_val o2]
                    [STATUS; OPTION1; OPTION2]) ∅ = inr options ->
  (~ In (Z.land (byte_val f) 0x0f) registered_codes ->
   parse [r; d0; d1; d2; d3; f; s; o1; o2] = inl UnknownFunction)
  /\ (Z.land (byte_val f) 0x0f = 0x0a ->
      parse [r; d0; d1; d2; d3; f; s; o1; o2] = inl UnknownFunction).
Proof.
  intros Hopt.
  assert (Hgen : ~ In (Z.land (byte_val f) 0x0f) registered_codes ->
                 parse [r; d0; d1; d2; d3; f; s; o1; o2] = inl UnknownFunction).
  { intros Hnot. apply parse_inl. rewrite parse_frame_steps.
    rewrite options_loop_spec in Hopt.
    destruct (test_bit (byte_val o1) 0 || test_bit (byte_val o2) 0);
      [discriminate |].
    destruct (FUNCTION !! Z.land (byte_val f) 15) as [fn |] eqn:Hfn;
      [| reflexivity].
    exfalso. apply Hnot. apply FUNCTION_registered. eauto. }
  split; [exact Hgen |].
  intros H10. apply Hgen. rewrite H10. cbn. intros Hin.
  repeat (destruct Hin as [Hin | Hin]; [discriminate |]). exact Hin.
Qed.

Lemma unknown_function_rejected_witness :
  parse [Byte.x00; Byte.x06; Byte.x00; Byte.x00; Byte.x00;
         Byte.x0a; Byte.x00; Byte.x00; Byte.x08] = inl UnknownFunction
  /\ parse [Byte.x00; Byte.x06; Byte.x00; Byte.x00; Byte.x00;
            Byte.x07; Byte.x00; Byte.x00; Byte.x08] = inl UnknownFunction.
Proof.
  split.
  - apply (unknown_function_rejected Byte.x00 Byte.x06 Byte.x00 Byte.x00
             Byte.x00 Byte.x0a Byte.x00 Byte.x00 Byte.x08 (flags 0 0 8));
      reflexivity.
  - apply (proj1 (unknown_function_rejected Byte.x00 Byte.x06 Byte.x00
                    Byte.x00 Byte.x00 Byte.x07 Byte.x00 Byte.x00 Byte.x08
                    (flags 0 0 8) eq_refl)).
    vm_compute. intros Hin.
    repeat (destruct Hin as [Hin | Hin]; [discriminate |]). exact Hin.
Defined.

(** C7: a packet with function code 0x04 ("temperature", whose range table
    is None) never parses: it fails in the flag decoding, or else at
    function[1][...] with the TypeError of subscripting None.  No
    Measurement, and so no value, unit scale or decimal point position, is
    returned. *)
Theorem temperature_never_parses (r d0 d1 d2 d3 f s o1 o2 : Byte.byte) :
  Z.land (byte_val f) 0x0f = 0x04 ->
  (parse [r; d0; d1; d2; d3; f; s; o1; o2] = inl InvalidStatusBits
   \/ parse [r; d0; d1; d2; d3; f; s; o1; o2] = inl NoRangeTable)
  /\ (forall m, parse [r; d0; d1; d2; d3; f; s; o1; o2] <> inr m)
  /\ (forall fr, parse_frame [r; d0; d1; d2; d3; f; s; o1; o2] <> inr fr).
Proof.
  intros Hf.
  assert (Hfr : parse_frame [r; d0; d1; d2; d3; f; s; o1; o2]
                = if test_bit (byte_val o1) 0 || test_bit (byte_val o2) 0
                  then inl InvalidStatusBits else inl NoRangeTable).
  { rewrite parse_frame_steps, Hf. reflexivity. }
  assert (Hp : parse [r; d0; d1; d2; d3; f; s; o1; o2] = inl InvalidStatusBits
               \/ parse [r; d0; d1; d2; d3; f; s; o1; o2] = inl NoRangeTable).
  { destruct (test_bit (byte_val o1) 0 || test_bit (byte_val o2) 0);
      [left | right]; apply parse_inl; exact Hfr. }
  split; [exact Hp |]. split.
  - intros m Hm. destruct Hp as [Hp | Hp]; rewrite Hp in Hm; discriminate.
  - intros fr Hfr'. rewrite Hfr in Hfr'.
    destruct (test_bit (byte_val o1) 0 || test_bit (byte_val o2) 0);
      discriminate.
Qed.

Lemma temperature_never_parses_witness :
  parse [Byte.x00; Byte.x02; Byte.x05; Byte.x00; Byte.x00;
         Byte.x04; Byte.x00; Byte.x00; Byte.x00] = inl NoRangeTable
  /\ py_exception NoRangeTable = "TypeError".
Proof.
  split; [| reflexivity].
  destruct (temperature_never_parses Byte.x00 Byte.x02 Byte.x05 Byte.x00
              Byte.x00 Byte.x04 Byte.x00 Byte.x00 Byte.x00 eq_refl)
    as ([H | H] & _ & _).
  - vm_compute in H. discriminate H.
  - exact H.
Defined.

(** C8: when parse reaches the digit reconstruction, the digits are the
    low nibbles of the four digit bytes, none refused: any other four digit
    bytes are parsed as well, and a nibble of 10 to 15 enters the sum with
    its value times 10^(3 - position) like any digit.  Four nibbles of 15
    give 16665, beyond four decimal digits. *)
Theorem digit_nibbles_not_validated (r d0 d1 d2 d3 f s o1 o2 : Byte.byte)
    (fr : frame) :
  parse_frame [r; d0; d1; d2; d3; f; s; o1; o2] = inr fr ->
  f_digits fr = [Z.land (byte_val d0) 0x0f; Z.land (byte_val d1) 0x0f;
                 Z.land (byte_val d2) 0x0f; Z.land (byte_val d3) 0x0f]
  /\ sum_digits (f_digits fr)
     = Z.land (byte_val d0) 0x0f * 10 ^ 3 + Z.land (byte_val d1) 0x0f * 10 ^ 2
       + Z.land (byte_val d2) 0x0f * 10 ^ 1 + Z.land (byte_val d3) 0x0f * 10 ^ 0
  /\ (f_operation fr = "normal" ->
      f_display_value fr
      = Some (dec_div_int
                (Decimal_of_int
                   (if test_bit (byte_val s) 2
                    then - sum_digits (f_digits fr)
                    else sum_digits (f_digits fr)))
                (10 ^ dp_digit_position (f_m_range fr))))
  /\ (forall e0 e1 e2 e3 : Byte.byte,
        exists fr',
          parse_frame [r; e0; e1; e2; e3; f; s; o1; o2] = inr fr'
          /\ f_digits fr'
             = [Z.land (byte_val e0) 0x0f; Z.land (byte_val e1) 0x0f;
                Z.land (byte_val e2) 0x0f; Z.land (byte_val e3) 0x0f])
  /\ (forall fr',
        parse_frame [r; Byte.x0f; Byte.x0f; Byte.x0f; Byte.x0f; f; s; o1; o2]
        = inr fr' ->
        sum_digits (f_digits fr') = 16665).
Proof.
  intros Hfr.
  apply parse_frame_inr in Hfr as (fn & rng & Ho1 & Ho2 & Hfn & Hrng & Hacdc & ->).
  split; [reflexivity |].
  split; [unfold frame_of; cbn [f_digits map]; apply sum_digits_4 |].
  split.
  { intros Hop. unfold frame_of in *.
    cbn [f_operation f_display_value f_digits f_m_range] in *.
    destruct (test_bit (byte_val s) 0); [discriminate | reflexivity]. }
  split.
  - intros e0 e1 e2 e3. exists (frame_of e0 e1 e2 e3 s o1 o2 fn rng).
    split; [| reflexivity].
    apply parse_frame_inr. exists fn, rng. repeat split; assumption.
  - intros fr' Hfr'.
    apply parse_frame_inr in Hfr' as (fn' & rng' & _ & _ & _ & _ & _ & ->).
    reflexivity.
Qed.

Lemma digit_nibbles_not_validated_witness :
  exists fr,
    parse_frame invalid_bcd_packet = inr fr
    /\ f_digits fr = [15; 10; 12; 15]
    /\ sum_digits (f_digits fr) = 16135
    /\ f_display_value fr = Some (mkDecimal false 16135 (-3)).
Proof.
  exists (frame_of Byte.x0f Byte.x0a Byte.x0c Byte.x0f Byte.x00 Byte.x00
            Byte.x08 ("voltage", Some RANGE_VOLTAGE, "V") (RangeEntry 0 3 "V")).
  assert (Hfr : parse_frame invalid_bcd_packet
                = inr (frame_of Byte.x0f Byte.x0a Byte.x0c Byte.x0f Byte.x00
                         Byte.x00 Byte.x08 ("voltage", Some RANGE_VOLTAGE, "V")
                         (RangeEntry 0 3 "V")))
    by (apply parse_frame_inr; eexists _, _; repeat split; reflexivity).
  destruct (digit_nibbles_not_validated Byte.x00 Byte.x0f Byte.x0a Byte.x0c
              Byte.x0f Byte.x0b Byte.x00 Byte.x00 Byte.x08 _ Hfr)
    as (Hd & Hs & Hv & _ & _).
  split; [exact Hfr |]. split; [exact Hd |].
  split; [rewrite Hs; reflexivity |].
  rewrite Hv by reflexivity. rewrite Hs. vm_compute. reflexivity.
Defined.

(** What output_readable does: without battery_low it returns the line,
    with battery_low the call of line.append raises. *)
Lemma output_readable_spec (results : Measurement) :
  output_readable results
  = if res_battery_low results then inl AttributeError
    else inr (if String.eqb (res_operation results) "normal"
              then format_display_value (res_display_value results)
                   +:+ " " +:+ res_display_unit results
              else "-, the measurement is " +:+ res_operation results
                   +:+ "ed!").
Proof.
  unfold output_readable, str_append.
  destruct (res_battery_low results); reflexivity.
Qed.

(** C9 at a Measurement with battery_low: output_readable returns no line;
    line.append raises AttributeError, in the "normal" and in the overload
    branch alike.  Without battery_low the two lines are as the claim has
    them. *)
Theorem output_readable_battery_low :
  parse battery_low_packet = inr battery_low_results
  /\ output_readable battery_low_results = inl AttributeError
  /\ output_readable
       {| res_value := None; res_unit := "V"; res_display_value := None;
          res_display_unit := "V"; res_mode := "voltage";
          res_current := Some "DC"; res_peak := None; res_hold := false;
          res_range := "manual"; res_operation := "overload";
          res_battery_low := true |} = inl AttributeError
  /\ output_readable scenario_1_results = inr "6 V"
  /\ output_readable scenario_2_results
     = inr "-, the measurement is overloaded!".
Proof. repeat split; vm_compute; reflexivity. Qed.

Lemma flags_dom (d_status d_option1 d_option2 : Z) :
  dom (flags d_status d_option1 d_option2)
  = list_to_set (name <$> flag_names).
Proof.
  unfold flags, status_bits, option1_bits, option2_bits.
  rewrite !dom_union_L, !dom_insert_L, !dom_empty_L.
  cbn [flag_names fmap list_fmap list_to_set]. set_solver.
Qed.

Lemma flags_size (d_status d_option1 d_option2 : Z) :
  size (flags d_status d_option1 d_option2) = 10%nat.
Proof.
  unfold flags, status_bits, option1_bits, option2_bits.
  generalize (test_bit d_status 0), (test_bit d_status 1),
    (test_bit d_status 2), (test_bit d_status 3),
    (test_bit d_option1 1), (test_bit d_option1 2), (test_bit d_option1 3),
    (test_bit d_option2 1), (test_bit d_option2 2), (test_bit d_option2 3).
  intros. vm_compute. reflexivity.
Qed.

Lemma parse_frame_no_MissingFlag (r d0 d1 d2 d3 f s o1 o2 : Byte.byte)
    (key : string) :
  parse_frame [r; d0; d1; d2; d3; f; s; o1; o2] <> inl (MissingFlag key).
Proof.
  rewrite parse_frame_steps.
  destruct (test_bit (byte_val o1) 0 || test_bit (byte_val o2) 0);
    [discriminate |].
  destruct (FUNCTION !! Z.land (byte_val f) 15) as [fn |]; [| discriminate].
  unfold subscript.
  destruct fn.1.2 as [l |]; [| discriminate].
  destruct (l !! Z.to_nat (Z.land (byte_val r) 15)); [| discriminate].
  cbn [ret].
  destruct (test_bit (byte_val o2) 2 && test_bit (byte_val o2) 3);
    discriminate.
Qed.

(** C10: when the fixed-zero bits of option1_byte and option2_byte are
    clear (status_byte has no fixed bit), the three decodes succeed and the
    dictionary they fill has exactly the keys JUDGE, SIGN, BATT, OL, HOLD,
    MAX, MIN, DC, AC, AUTO; every options[...] of parse finds its key, and
    parse never fails on a flag lookup. *)
Theorem flag_lookups_succeed (r d0 d1 d2 d3 f s o1 o2 : Byte.byte) :
  test_bit (byte_val o1) 0 = false ->
  test_bit (byte_val o2) 0 = false ->
  exists options : gmap slot bool,
    options_loop (zip [byte_val s; byte_val o1; byte_val o2]
                      [STATUS; OPTION1; OPTION2]) ∅ = inr options
    /\ dom options = list_to_set (name <$> flag_names)
    /\ size options = 10%nat
    /\ (forall key, In key flag_names ->
          exists b, getitem options key = inr b)
    /\ (forall key,
          parse [r; d0; d1; d2; d3; f; s; o1; o2] <> inl (MissingFlag key)).
Proof.
  intros Ho1 Ho2.
  exists (flags (byte_val s) (byte_val o1) (byte_val o2)).
  split; [rewrite options_loop_spec, Ho1, Ho2; reflexivity |].
  split; [apply flags_dom |].
  split; [apply flags_size |].
  split.
  - intros key Hin.
    destruct (flags_lookup (byte_val s) (byte_val o1) (byte_val o2))
      as (HJ & HS & HB & HO & HH & HMax & HMin & HDC & HAC & HAuto).
    cbn in Hin.
    repeat (destruct Hin as [<- | Hin]; [eexists; eassumption |]).
    destruct Hin.
  - intros key Hp. apply parse_inl in Hp.
    exact (parse_frame_no_MissingFlag r d0 d1 d2 d3 f s o1 o2 key Hp).
Qed.

Lemma flag_lookups_succeed_witness :
  exists options : gmap slot bool,
    options_loop (zip [byte_val Byte.x05; byte_val Byte.x0a; byte_val Byte.x08]
                      [STATUS; OPTION1; OPTION2]) ∅ = inr options
    /\ dom options = list_to_set (name <$> flag_names)
    /\ size options = 10%nat
    /\ (forall key, In key flag_names ->
          exists b, getitem options key = inr b)
    /\ (forall key,
          parse [Byte.x00; Byte.x06; Byte.x00; Byte.x00; Byte.x00;
                 Byte.x0b; Byte.x05; Byte.x0a; Byte.x08]
          <> inl (MissingFlag key)).
Proof.
  apply (flag_lookups_succeed Byte.x00 Byte.x06 Byte.x00 Byte.x00 Byte.x00
           Byte.x0b Byte.x05 Byte.x0a Byte.x08); reflexivity.
Defined.

(** * Further properties *)

(** ** test_bit and get_bits *)

(** X1: test_bit answers whether the bit at [offset] is one: for an offset
    that is not negative it is true exactly when (int_type / 2^offset) is
    odd, for negative int_type (two's complement) as well. *)
Theorem test_bit_is_bit (int_type offset : Z) :
  0 <= offset ->
  test_bit int_type offset = Z.testbit int_type offset
  /\ (test_bit int_type offset = true
      <-> (int_type / 2 ^ offset) mod 2 = 1).
Proof.
  intros Hoff. rewrite test_bit_testbit by assumption.
  split; [reflexivity |]. apply Z.testbit_true. assumption.
Qed.

Lemma test_bit_is_bit_witness :
  test_bit 10 3 = Z.testbit 10 3
  /\ (test_bit 10 3 = true <-> (10 / 2 ^ 3) mod 2 = 1).
Proof. apply (test_bit_is_bit 10 3). lia. Defined.

Lemma test_bit_land_15 (x i : Z) :
  0 <= i < 4 -> test_bit (Z.land x 0x0f) i = test_bit x i.
Proof.
  intros Hi. rewrite !test_bit_testbit by lia. rewrite Z.land_spec.
  assert (Hc : i = 0 \/ i = 1 \/ i = 2 \/ i = 3) by lia.
  destruct Hc as [-> | [-> | [-> | ->]]]; apply andb_true_r.
Qed.

Lemma get_bits_step_land_15 (x : Z) (template : list slot)
    (bits : gmap slot bool) (i : nat) :
  (i < 4)%nat ->
  get_bits_step (Z.land x 0x0f) template bits i
  = get_bits_step x template bits i.
Proof.
  intros Hi. unfold get_bits_step. rewrite test_bit_land_15 by lia.
  reflexivity.
Qed.

Lemma get_bits_loop_land_15 (x : Z) (template : list slot)
    (indices : list nat) (bits : gmap slot bool) :
  Forall (fun i => (i < 4)%nat) indices ->
  get_bits_loop (Z.land x 0x0f) template indices bits
  = get_bits_loop x template indices bits.
Proof.
  intros Hall. revert bits.
  induction Hall as [| i indices Hi _ IH]; intros bits; cbn [get_bits_loop].
  - reflexivity.
  - rewrite get_bits_step_land_15 by assumption.
    destruct (get_bits_step x template bits i) as [e | bits'];
      cbn [bind]; [reflexivity | apply IH].
Qed.

Lemma get_bits_land_15 (x : Z) (template : list slot) :
  get_bits (Z.land x 0x0f) template = get_bits x template.
Proof.
  unfold get_bits. apply get_bits_loop_land_15.
  cbn [seq]. repeat constructor.
Qed.

(** X2: get_bits reads bits 0 to 3 only: for every template, an int and its
    low nibble decode alike, the failure included. *)
Theorem get_bits_low_nibble (int_type : Z) (template : list slot) :
  get_bits (Z.land int_type 0x0f) template = get_bits int_type template.
Proof. exact (get_bits_land_15 int_type template). Qed.

(** X3: a template of fewer than four slots makes get_bits raise
    IndexError at its first bit, whatever the int is. *)
Theorem get_bits_short_template (int_type : Z) (template : list slot) :
  (length template < 4)%nat ->
  get_bits int_type template = inl TemplateIndexError.
Proof.
  intros Hlen. unfold get_bits. cbn [seq get_bits_loop].
  unfold get_bits_step at 1.
  rewrite (lookup_ge_None_2 template (3 - 0)%nat) by (cbn; lia).
  reflexivity.
Qed.

Lemma get_bits_short_template_witness :
  get_bits 5 [name "A"; name "B"; fixed 0] = inl TemplateIndexError.
Proof. apply get_bits_short_template. cbn. lia. Defined.

Lemma get_bits_four_slots_eq (x : Z) (t3 t2 t1 t0 : slot) :
  get_bits x [t3; t2; t1; t0]
  = if slot_mismatch (test_bit x 0) t0 || slot_mismatch (test_bit x 1) t1
       || slot_mismatch (test_bit x 2) t2 || slot_mismatch (test_bit x 3) t3
    then inl InvalidStatusBits
    else inr (slot_put t3 (test_bit x 3)
                (slot_put t2 (test_bit x 2)
                   (slot_put t1 (test_bit x 1)
                      (slot_put t0 (test_bit x 0) ∅)))).
Proof.
  unfold get_bits. cbn [seq get_bits_loop]. unfold get_bits_step.
  change ([t3; t2; t1; t0] !! (3 - 0)%nat) with (Some t0).
  change ([t3; t2; t1; t0] !! (3 - 1)%nat) with (Some t1).
  change ([t3; t2; t1; t0] !! (3 - 2)%nat) with (Some t2).
  change ([t3; t2; t1; t0] !! (3 - 3)%nat) with (Some t3).
  change (Z.of_nat 0) with 0. change (Z.of_nat 1) with 1.
  change (Z.of_nat 2) with 2. change (Z.of_nat 3) with 3.
  unfold slot_mismatch, slot_put.
  destruct (in_0_1 t0), (bit_eq (test_bit x 0) t0); cbn [andb negb orb bind ret raise];
    try reflexivity;
    (destruct (in_0_1 t1), (bit_eq (test_bit x 1) t1);
     cbn [andb negb orb bind ret raise]; try reflexivity;
     (destruct (in_0_1 t2), (bit_eq (test_bit x 2) t2);
      cbn [andb negb orb bind ret raise]; try reflexivity;
      (destruct (in_0_1 t3), (bit_eq (test_bit x 3) t3);
       cbn [andb negb orb bind ret raise]; reflexivity))).
Qed.

Lemma slot_put_dom (t : slot) (b : bool) (bits : gmap slot bool) :
  dom (slot_put t b bits)
  = (if in_0_1 t then ∅ else {[t]}) ∪ dom bits.
Proof.
  unfold slot_put. destruct (in_0_1 t).
  - rewrite (left_id_L ∅ (∪)). reflexivity.
  - apply dom_insert_L.
Qed.

Lemma slot_put_lookup_ne (t t' : slot) (b : bool) (bits : gmap slot bool) :
  t <> t' -> slot_put t b bits !! t' = bits !! t'.
Proof.
  intros Hne. unfold slot_put. destruct (in_0_1 t); [reflexivity |].
  apply lookup_insert_ne. exact Hne.
Qed.

Lemma slot_put_lookup_eq (t : slot) (b : bool) (bits : gmap slot bool) :
  in_0_1 t = false -> slot_put t b bits !! t = Some b.
Proof.
  intros Hn. unfold slot_put. rewrite Hn. apply lookup_insert_eq.
Qed.

(** X4: on a template of four slots get_bits fails, and then with the
    ValueError of a fixed bit, exactly when some slot that is the fixed bit
    0 or 1 differs from its bit (slot 3 - i against bit i).  When it
    succeeds the keys are the slots that are not fixed bits, and with four
    different slots each key holds its bit. *)
Theorem get_bits_four_slots (x : Z) (t3 t2 t1 t0 : slot) :
  (get_bits x [t3; t2; t1; t0] = inl InvalidStatusBits
   <-> slot_mismatch (test_bit x 0) t0 || slot_mismatch (test_bit x 1) t1
       || slot_mismatch (test_bit x 2) t2 || slot_mismatch (test_bit x 3) t3
       = true)
  /\ (forall e, get_bits x [t3; t2; t1; t0] = inl e -> e = InvalidStatusBits)
  /\ forall bits : gmap slot bool,
       get_bits x [t3; t2; t1; t0] = inr bits ->
       dom bits
       = (if in_0_1 t3 then ∅ else {[t3]}) ∪ (if in_0_1 t2 then ∅ else {[t2]})
         ∪ (if in_0_1 t1 then ∅ else {[t1]}) ∪ (if in_0_1 t0 then ∅ else {[t0]})
       /\ (NoDup [t3; t2; t1; t0] ->
           (in_0_1 t0 = false -> bits !! t0 = Some (test_bit x 0))
           /\ (in_0_1 t1 = false -> bits !! t1 = Some (test_bit x 1))
           /\ (in_0_1 t2 = false -> bits !! t2 = Some (test_bit x 2))
           /\ (in_0_1 t3 = false -> bits !! t3 = Some (test_bit x 3))).
Proof.
  rewrite get_bits_four_slots_eq.
  destruct (slot_mismatch (test_bit x 0) t0 || slot_mismatch (test_bit x 1) t1
            || slot_mismatch (test_bit x 2) t2
            || slot_mismatch (test_bit x 3) t3).
  - split; [split; reflexivity |]. split.
    + intros e [= <-]. reflexivity.
    + intros bits [=].
  - split; [split; discriminate |]. split; [intros e [=] |].
    intros bits [= <-]. split.
    + rewrite !slot_put_dom, dom_empty_L, (right_id_L ∅ (∪)).
      rewrite !(assoc_L (∪)). reflexivity.
    + intros Hnd.
      apply NoDup_cons in Hnd as [H3 Hnd].
      apply NoDup_cons in Hnd as [H2 Hnd].
      apply NoDup_cons in Hnd as [H1 _].
      assert (t3 <> t2 /\ t3 <> t1 /\ t3 <> t0 /\ t2 <> t1 /\ t2 <> t0
              /\ t1 <> t0) as (N32 & N31 & N30 & N21 & N20 & N10)
        by (repeat split; intros ->;
            first [ solve [apply H3; repeat constructor]
                  | solve [apply H2; repeat constructor]
                  | solve [apply H1; repeat constructor] ]).
      repeat split; intros Hn.
      * rewrite !slot_put_lookup_ne by assumption.
        apply slot_put_lookup_eq, Hn.
      * rewrite !slot_put_lookup_ne by assumption.
        apply slot_put_lookup_eq, Hn.
      * rewrite slot_put_lookup_ne by assumption.
        apply slot_put_lookup_eq, Hn.
      * apply slot_put_lookup_eq, Hn.
Qed.

Lemma get_bits_four_slots_witness :
  get_bits 0x0b [name "HOLD"; name "MAX"; name "MIN"; fixed 1]
  = inr (<[name "HOLD" := true]>
           (<[name "MAX" := false]> (<[name "MIN" := true]> ∅)))
  /\ get_bits 0x0a [name "HOLD"; name "MAX"; name "MIN"; fixed 1]
     = inl InvalidStatusBits.
Proof.
  split.
  - reflexivity.
  - apply (proj1 (get_bits_four_slots 0x0a (name "HOLD") (name "MAX")
                    (name "MIN") (fixed 1))).
    reflexivity.
Defined.

Lemma nibble_bits (x : Z) :
  Z.land x 0x0f
  = 8 * Z.b2z (test_bit x 3) + 4 * Z.b2z (test_bit x 2)
    + 2 * Z.b2z (test_bit x 1) + Z.b2z (test_bit x 0).
Proof.
  rewrite <- (test_bit_land_15 x 3), <- (test_bit_land_15 x 2),
    <- (test_bit_land_15 x 1), <- (test_bit_land_15 x 0) by lia.
  pose proof (land_15_bound x) as Hb.
  generalize dependent (Z.land x 0x0f). intros n Hn.
  assert (Hk : (Z.to_nat n < 16)%nat) by lia.
  rewrite <- (Z2Nat.id n) by lia.
  generalize dependent (Z.to_nat n). clear Hn. intros k Hk.
  do 16 (destruct k as [| k]; [reflexivity |]). lia.
Qed.

Lemma status_bits_lookup (x : Z) :
  status_bits x !! name "JUDGE" = Some (test_bit x 3)
  /\ status_bits x !! name "SIGN" = Some (test_bit x 2)
  /\ status_bits x !! name "BATT" = Some (test_bit x 1)
  /\ status_bits x !! name "OL" = Some (test_bit x 0).
Proof.
  unfold status_bits.
  generalize (test_bit x 0), (test_bit x 1), (test_bit x 2), (test_bit x 3).
  intros. vm_compute. repeat split.
Qed.

(** X5: the four flags of status_byte determine its low nibble and nothing
    more: get_bits on STATUS never fails, the nibble is
    8*JUDGE + 4*SIGN + 2*BATT + OL of the flags decoded, and two bytes
    decode to the same flags exactly when their low nibbles are equal. *)
Theorem status_flags_round_trip (x : Z) :
  (exists j s b o : bool,
     get_bits x STATUS
     = inr (<[name "JUDGE" := j]>
              (<[name "SIGN" := s]>
                 (<[name "BATT" := b]> (<[name "OL" := o]> ∅))))
     /\ Z.land x 0x0f = 8 * Z.b2z j + 4 * Z.b2z s + 2 * Z.b2z b + Z.b2z o)
  /\ forall y : Z,
       get_bits x STATUS = get_bits y STATUS
       <-> Z.land x 0x0f = Z.land y 0x0f.
Proof.
  split.
  - exists (test_bit x 3), (test_bit x 2), (test_bit x 1), (test_bit x 0).
    split; [apply get_bits_STATUS | apply nibble_bits].
  - intros y. split.
    + intros Heq. rewrite !get_bits_STATUS in Heq.
      assert (Hm : status_bits x = status_bits y)
        by exact (f_equal (fun r : result (gmap slot bool) =>
                             match r with
                             | inr m => m
                             | inl _ => status_bits x
                             end) Heq).
      destruct (status_bits_lookup x) as (X3 & X2 & X1 & X0).
      destruct (status_bits_lookup y) as (Y3 & Y2 & Y1 & Y0).
      rewrite Hm in X3, X2, X1, X0.
      rewrite (nibble_bits x), (nibble_bits y). congruence.
    + intros Heq. rewrite <- (get_bits_land_15 x), <- (get_bits_land_15 y).
      rewrite Heq. reflexivity.
Qed.

(** ** parse *)

Lemma parse_steps (r d0 d1 d2 d3 f s o1 o2 : Byte.byte) :
  parse [r; d0; d1; d2; d3; f; s; o1; o2]
  = if test_bit (byte_val o1) 0 || test_bit (byte_val o2) 0
    then inl InvalidStatusBits
    else
      match FUNCTION !! Z.land (byte_val f) 0x0f with
      | None => inl UnknownFunction
      | Some fn =>
          match subscript fn.1.2 (Z.land (byte_val r) 0x0f) with
          | inl e => inl e
          | inr rng =>
              if test_bit (byte_val o2) 2 && test_bit (byte_val o2) 3
              then inl ConflictingCurrentType
              else inr (results (frame_of d0 d1 d2 d3 s o1 o2 fn rng))
          end
      end.
Proof.
  unfold parse. rewrite parse_frame_steps.
  destruct (test_bit (byte_val o1) 0 || test_bit (byte_val o2) 0);
    [reflexivity |].
  destruct (FUNCTION !! Z.land (byte_val f) 15) as [fn |]; [| reflexivity].
  destruct (subscript fn.1.2 (Z.land (byte_val r) 15)); [reflexivity |].
  destruct (test_bit (byte_val o2) 2 && test_bit (byte_val o2) 3);
    reflexivity.
Qed.

Lemma length_9 (packet : list Byte.byte) :
  length packet = 9%nat ->
  exists r d0 d1 d2 d3 f s o1 o2,
    packet = [r; d0; d1; d2; d3; f; s; o1; o2].
Proof.
  intros Hlen.
  destruct packet as [| r [| d0 [| d1 [| d2 [| d3 [| f [| s [| o1 [| o2 [| x l]]]]]]]]]];
    try discriminate Hlen.
  eauto 10.
Qed.

Lemma parse_steps_not_framing (r d0 d1 d2 d3 f s o1 o2 : Byte.byte) :
  parse [r; d0; d1; d2; d3; f; s; o1; o2] <> inl FramingError.
Proof.
  rewrite parse_steps.
  destruct (test_bit (byte_val o1) 0 || test_bit (byte_val o2) 0);
    [discriminate |].
  destruct (FUNCTION !! Z.land (byte_val f) 15) as [fn |]; [| discriminate].
  unfold subscript. destruct fn.1.2 as [l |]; [| discriminate].
  destruct (l !! Z.to_nat (Z.land (byte_val r) 15)); [| discriminate].
  cbn [ret].
  destruct (test_bit (byte_val o2) 2 && test_bit (byte_val o2) 3);
    discriminate.
Qed.

Lemma parse_wrong_length (packet : list Byte.byte) :
  length packet <> 9%nat -> parse packet = inl FramingError.
Proof.
  intros Hlen. unfold parse, parse_frame, struct_unpack_9B.
  destruct packet as [| r [| d0 [| d1 [| d2 [| d3 [| f [| s [| o1 [| o2 [| x l]]]]]]]]]];
    try reflexivity.
  exfalso. apply Hlen. reflexivity.
Qed.

(** X6: parse raises the struct.error of the unpacking exactly for the
    packets that are not nine bytes long (the empty one included); a
    packet of nine bytes never does. *)
Theorem parse_framing (packet : list Byte.byte) :
  parse packet = inl FramingError <-> length packet <> 9%nat.
Proof.
  split.
  - intros Hp Hlen.
    apply length_9 in Hlen as (r & d0 & d1 & d2 & d3 & f & s & o1 & o2 & ->).
    exact (parse_steps_not_framing r d0 d1 d2 d3 f s o1 o2 Hp).
  - apply parse_wrong_length.
Qed.

Lemma test_bit_nibble_eq (x y i : Z) :
  Z.land x 0x0f = Z.land y 0x0f -> 0 <= i < 4 -> test_bit x i = test_bit y i.
Proof.
  intros Heq Hi.
  rewrite <- (test_bit_land_15 x i), <- (test_bit_land_15 y i) by assumption.
  rewrite Heq. reflexivity.
Qed.

(** X7: parse reads the low nibble of each of the nine bytes and nothing
    else: two packets whose bytes have the same low nibbles give the same
    Measurement, or the same exception. *)
Theorem parse_low_nibbles (p q : list Byte.byte) :
  length p = 9%nat ->
  map (fun b => Z.land (byte_val b) 0x0f) p
  = map (fun b => Z.land (byte_val b) 0x0f) q ->
  parse p = parse q.
Proof.
  intros Hp Hmap.
  assert (Hq : length q = 9%nat).
  { rewrite <- (length_map (fun b => Z.land (byte_val b) 0x0f) q), <- Hmap,
      length_map. exact Hp. }
  apply length_9 in Hp as (r & d0 & d1 & d2 & d3 & f & s & o1 & o2 & ->).
  apply length_9 in Hq as (r' & d0' & d1' & d2' & d3' & f' & s' & o1' & o2' & ->).
  cbn [map] in Hmap.
  injection Hmap as Hr H0 H1 H2 H3 Hf Hs Ho1 Ho2.
  rewrite !parse_steps, Hr, Hf.
  pose proof (fun i Hi => test_bit_nibble_eq _ _ i Hs Hi) as Es.
  pose proof (fun i Hi => test_bit_nibble_eq _ _ i Ho1 Hi) as E1.
  pose proof (fun i Hi => test_bit_nibble_eq _ _ i Ho2 Hi) as E2.
  rewrite (E1 0), (E2 0), (E2 2), (E2 3) by lia.
  destruct (test_bit (byte_val o1') 0 || test_bit (byte_val o2') 0);
    [reflexivity |].
  destruct (FUNCTION !! Z.land (byte_val f') 15) as [fn |]; [| reflexivity].
  destruct (subscript fn.1.2 (Z.land (byte_val r') 15)) as [e | rng];
    [reflexivity |].
  destruct (test_bit (byte_val o2') 2 && test_bit (byte_val o2') 3);
    [reflexivity |].
  do 2 f_equal.
  unfold frame_of, flags, status_bits, option1_bits, option2_bits.
  cbn [map].
  rewrite H0, H1, H2, H3.
  rewrite (Es 0), (Es 1), (Es 2), (Es 3), (E1 1), (E1 2), (E1 3),
    (E2 1), (E2 2), (E2 3) by lia.
  reflexivity.
Qed.

Lemma parse_low_nibbles_witness :
  parse [Byte.xf0; Byte.x36; Byte.x30; Byte.x30; Byte.x30;
         Byte.x3b; Byte.x30; Byte.x30; Byte.x38]
  = parse scenario_1_packet.
Proof. apply parse_low_nibbles; reflexivity. Defined.

Lemma subscript_inr_iff (table : option (list range_entry)) (i : Z)
    (rng : range_entry) :
  subscript table i = inr rng
  <-> exists l, table = Some l /\ l !! Z.to_nat i = Some rng.
Proof.
  unfold subscript. destruct table as [l |].
  - destruct (l !! Z.to_nat i) as [e |] eqn:Hl; unfold ret, raise; split.
    + intros [= ->]. exists l. split; [reflexivity | exact Hl].
    + intros (l' & [= <-] & Hl'). rewrite Hl' in Hl.
      injection Hl as ->. reflexivity.
    + discriminate.
    + intros (l' & [= <-] & Hl'). rewrite Hl' in Hl. discriminate Hl.
  - split; [discriminate | intros (l & [=] & _)].
Qed.

Lemma subscript_cases (table : option (list range_entry)) (i : Z) :
  (table = None /\ subscript table i = inl NoRangeTable)
  \/ (exists l, table = Some l /\ (length l <= Z.to_nat i)%nat
                /\ subscript table i = inl UnknownRange)
  \/ (exists l rng, table = Some l /\ (Z.to_nat i < length l)%nat
                    /\ l !! Z.to_nat i = Some rng
                    /\ subscript table i = inr rng).
Proof.
  unfold subscript. destruct table as [l |]; [| left; split; reflexivity].
  right. destruct (l !! Z.to_nat i) as [rng |] eqn:Hl.
  - right. exists l, rng. repeat split; try assumption.
    apply lookup_lt_Some in Hl. exact Hl.
  - left. exists l. repeat split. apply lookup_ge_None in Hl. exact Hl.
Qed.

Lemma FUNCTION_no_table (code : Z) (fn : function_entry) :
  FUNCTION !! code = Some fn -> (fn.1.2 = None <-> code = 0x04).
Proof.
  intros Hfn. apply FUNCTION_entries in Hfn.
  elem_cases Hfn; injection Hfn as -> ->; cbn; split; intros H;
    try discriminate H; reflexivity.
Qed.

(** X8: a packet of nine bytes parses exactly when bit 0 of option1_byte
    and of option2_byte is clear, the function nibble has an entry with a
    range table, the range nibble is an index of that table, and AC and DC
    are not both set. *)
Theorem parse_success_iff (r d0 d1 d2 d3 f s o1 o2 : Byte.byte) :
  (exists m, parse [r; d0; d1; d2; d3; f; s; o1; o2] = inr m)
  <-> test_bit (byte_val o1) 0 = false
      /\ test_bit (byte_val o2) 0 = false
      /\ (exists fn table,
            FUNCTION !! Z.land (byte_val f) 0x0f = Some fn
            /\ fn.1.2 = Some table
            /\ (Z.to_nat (Z.land (byte_val r) 0x0f) < length table)%nat)
      /\ test_bit (byte_val o2) 2 && test_bit (byte_val o2) 3 = false.
Proof.
  rewrite parse_steps. split.
  - intros (m & Hm).
    destruct (test_bit (byte_val o1) 0); [discriminate |].
    destruct (test_bit (byte_val o2) 0); [discriminate |]. cbn [orb] in Hm.
    destruct (FUNCTION !! Z.land (byte_val f) 15) as [fn |]; [| discriminate].
    destruct (subscript_cases fn.1.2 (Z.land (byte_val r) 15))
      as [(_ & Hs) | [(l & _ & _ & Hs) | (l & rng & Ht & Hlt & _ & Hs)]];
      rewrite Hs in Hm; try discriminate.
    destruct (test_bit (byte_val o2) 2 && test_bit (byte_val o2) 3);
      [discriminate |].
    repeat split. exists fn, l. repeat split; assumption.
  - intros (-> & -> & (fn & table & -> & Ht & Hlt) & ->). cbn [orb].
    apply lookup_lt_is_Some in Hlt as [rng Hrng].
    assert (Hs : subscript fn.1.2 (Z.land (byte_val r) 15) = inr rng)
      by (apply subscript_inr_iff; eauto).
    rewrite Hs. eauto.
Qed.

(** X9: the exception of a packet of nine bytes is that of the first step
    that fails, in the order flag decoding, function lookup, range lookup,
    AC/DC check: ValueError of get_bits when bit 0 of an option byte is
    set; else KeyError when the function nibble has no entry; else
    TypeError when the entry has no range table (code 0x04); else
    IndexError when the range nibble is past the table; else the ValueError
    of AC with DC.  There is no other. *)
Theorem parse_error_cases (r d0 d1 d2 d3 f s o1 o2 : Byte.byte) (e : error) :
  parse [r; d0; d1; d2; d3; f; s; o1; o2] = inl e ->
  (e = InvalidStatusBits
   /\ (test_bit (byte_val o1) 0 = true \/ test_bit (byte_val o2) 0 = true))
  \/ (test_bit (byte_val o1) 0 = false /\ test_bit (byte_val o2) 0 = false
      /\ ((e = UnknownFunction
           /\ ~ In (Z.land (byte_val f) 0x0f) registered_codes)
          \/ (e = NoRangeTable /\ Z.land (byte_val f) 0x0f = 0x04)
          \/ exists fn table,
               FUNCTION !! Z.land (byte_val f) 0x0f = Some fn
               /\ fn.1.2 = Some table
               /\ ((e = UnknownRange
                    /\ (length table
                        <= Z.to_nat (Z.land (byte_val r) 0x0f))%nat)
                   \/ (e = ConflictingCurrentType
                       /\ (Z.to_nat (Z.land (byte_val r) 0x0f)
                           < length table)%nat
                       /\ test_bit (byte_val o2) 2 = true
                       /\ test_bit (byte_val o2) 3 = true)))).
Proof.
  rewrite parse_steps. intros Hp.
  destruct (test_bit (byte_val o1) 0) eqn:H1;
    [left; injection Hp as <-; split; [reflexivity | left; reflexivity] |].
  destruct (test_bit (byte_val o2) 0) eqn:H2;
    [left; injection Hp as <-; split; [reflexivity | right; reflexivity] |].
  cbn [orb] in Hp. right. split; [reflexivity |]. split; [reflexivity |].
  destruct (FUNCTION !! Z.land (byte_val f) 15) as [fn |] eqn:Hfn.
  - destruct (subscript_cases fn.1.2 (Z.land (byte_val r) 15))
      as [(Ht & Hs) | [(l & Ht & Hle & Hs) | (l & rng & Ht & Hlt & _ & Hs)]];
      rewrite Hs in Hp.
    + right. left. injection Hp as <-. split; [reflexivity |].
      apply (FUNCTION_no_table _ fn Hfn). exact Ht.
    + right. right. exists fn, l. injection Hp as <-.
      split; [reflexivity |]. split; [exact Ht |]. left. split; [reflexivity |].
      exact Hle.
    + right. right. exists fn, l.
      destruct (test_bit (byte_val o2) 2), (test_bit (byte_val o2) 3);
        try discriminate Hp.
      injection Hp as <-.
      split; [reflexivity |]. split; [exact Ht |]. right. repeat split.
      exact Hlt.
  - left. injection Hp as <-. split; [reflexivity |].
    intros Hin. apply FUNCTION_registered in Hin as [fn Hfn'].
    rewrite Hfn in Hfn'. discriminate.
Qed.

Lemma parse_error_cases_witness :
  UnknownRange = InvalidStatusBits
  /\ (test_bit (byte_val Byte.x00) 0 = true
      \/ test_bit (byte_val Byte.x00) 0 = true)
  \/ test_bit (byte_val Byte.x00) 0 = false
     /\ test_bit (byte_val Byte.x00) 0 = false
     /\ ((UnknownRange = UnknownFunction
          /\ ~ In (Z.land (byte_val Byte.x0b) 0x0f) registered_codes)
         \/ (UnknownRange = NoRangeTable
             /\ Z.land (byte_val Byte.x0b) 0x0f = 0x04)
         \/ exists fn table,
              FUNCTION !! Z.land (byte_val Byte.x0b) 0x0f = Some fn
              /\ fn.1.2 = Some table
              /\ ((UnknownRange = UnknownRange
                   /\ (length table
                       <= Z.to_nat (Z.land (byte_val Byte.x05) 0x0f))%nat)
                  \/ (UnknownRange = ConflictingCurrentType
                      /\ (Z.to_nat (Z.land (byte_val Byte.x05) 0x0f)
                          < length table)%nat
                      /\ test_bit (byte_val Byte.x00) 2 = true
                      /\ test_bit (byte_val Byte.x00) 3 = true))).
Proof.
  apply (parse_error_cases Byte.x05 Byte.x06 Byte.x00 Byte.x00 Byte.x00
           Byte.x0b Byte.x00 Byte.x00 Byte.x00 UnknownRange).
  vm_compute. reflexivity.
Defined.

Lemma parse_inr_frame (r d0 d1 d2 d3 f s o1 o2 : Byte.byte) (m : Measurement) :
  parse [r; d0; d1; d2; d3; f; s; o1; o2] = inr m ->
  exists fn table rng,
    FUNCTION !! Z.land (byte_val f) 0x0f = Some fn
    /\ fn.1.2 = Some table
    /\ table !! Z.to_nat (Z.land (byte_val r) 0x0f) = Some rng
    /\ test_bit (byte_val o2) 2 && test_bit (byte_val o2) 3 = false
    /\ m = results (frame_of d0 d1 d2 d3 s o1 o2 fn rng).
Proof.
  intros Hp. apply parse_inr in Hp as (fr & Hfr & ->).
  apply parse_frame_inr in Hfr as (fn & rng & _ & _ & Hfn & Hrng & Hacdc & ->).
  apply subscript_inr_iff in Hrng as (table & Ht & Hl).
  exists fn, table, rng. repeat split; assumption.
Qed.

(** X10: the range nibble of a packet that parses indexes the range table
    of its function, so it is below 7 for every function, and it is 0 for
    diode (0x01), continuity (0x05), the 10 A current (0x09) and current
    gain (0x0e), whose tables have one entry. *)
Theorem parse_range_nibble_bound (r d0 d1 d2 d3 f s o1 o2 : Byte.byte)
    (m : Measurement) :
  parse [r; d0; d1; d2; d3; f; s; o1; o2] = inr m ->
  Z.land (byte_val r) 0x0f < 7
  /\ (In (Z.land (byte_val f) 0x0f) [0x01; 0x05; 0x09; 0x0e] ->
      Z.land (byte_val r) 0x0f = 0).
Proof.
  intros Hp.
  apply parse_inr_frame in Hp as (fn & table & rng & Hfn & Ht & Hl & _ & _).
  apply lookup_lt_Some in Hl.
  pose proof (land_15_bound (byte_val r)) as Hb.
  apply FUNCTION_entries in Hfn.
  elem_cases Hfn; injection Hfn as Hc ->; cbn in Ht;
    try discriminate Ht; injection Ht as <-; cbn in Hl;
    (split; [lia |]); rewrite Hc; cbn; intros Hin;
    repeat (destruct Hin as [Hin | Hin]; try discriminate Hin);
    try contradiction; lia.
Qed.

Lemma parse_range_nibble_bound_witness :
  Z.land (byte_val Byte.x00) 0x0f < 7
  /\ (In (Z.land (byte_val Byte.x0b) 0x0f) [0x01; 0x05; 0x09; 0x0e] ->
      Z.land (byte_val Byte.x00) 0x0f = 0).
Proof.
  apply (parse_range_nibble_bound Byte.x00 Byte.x06 Byte.x00 Byte.x00 Byte.x00
           Byte.x0b Byte.x00 Byte.x00 Byte.x08 scenario_1_results).
  vm_compute. reflexivity.
Defined.

(** X11: the flag fields of a Measurement follow the bits of the packet:
    operation from bit 0 and battery_low from bit 1 of status_byte, hold
    from bit 3 of option1_byte, range from bit 1 of option2_byte, and peak
    is "max" when bit 2 of option1_byte is set, whatever bit 1 is, "min"
    when only bit 1 is, None otherwise. *)
Theorem parse_flag_fields (r d0 d1 d2 d3 f s o1 o2 : Byte.byte)
    (m : Measurement) :
  parse [r; d0; d1; d2; d3; f; s; o1; o2] = inr m ->
  res_operation m
  = (if test_bit (byte_val s) 0 then "overload" else "normal")
  /\ res_battery_low m = test_bit (byte_val s) 1
  /\ res_hold m = test_bit (byte_val o1) 3
  /\ res_range m = (if test_bit (byte_val o2) 1 then "auto" else "manual")
  /\ res_peak m
     = (if test_bit (byte_val o1) 2 then Some "max"
        else if test_bit (byte_val o1) 1 then Some "min" else None).
Proof.
  intros Hp.
  apply parse_inr_frame in Hp as (fn & table & rng & _ & _ & _ & _ & ->).
  repeat split.
Qed.

Lemma parse_flag_fields_witness :
  res_operation scenario_2_results
  = (if test_bit (byte_val Byte.x01) 0 then "overload" else "normal")
  /\ res_battery_low scenario_2_results = test_bit (byte_val Byte.x01) 1
  /\ res_hold scenario_2_results = test_bit (byte_val Byte.x00) 3
  /\ res_range scenario_2_results
     = (if test_bit (byte_val Byte.x08) 1 then "auto" else "manual")
  /\ res_peak scenario_2_results
     = (if test_bit (byte_val Byte.x00) 2 then Some "max"
        else if test_bit (byte_val Byte.x00) 1 then Some "min" else None).
Proof.
  apply (parse_flag_fields Byte.x00 Byte.x06 Byte.x00 Byte.x00 Byte.x00
           Byte.x0b Byte.x01 Byte.x00 Byte.x08 scenario_2_results).
  vm_compute. reflexivity.
Defined.

(** X12: in a Measurement that parse returns, operation is "normal" or
    "overload"; value and display_value are both there when it is "normal"
    and both empty when it is "overload", and value is then
    float(display_value) times a multiplier 1e<k> of a range entry. *)
Theorem parse_value_presence (r d0 d1 d2 d3 f s o1 o2 : Byte.byte)
    (m : Measurement) :
  parse [r; d0; d1; d2; d3; f; s; o1; o2] = inr m ->
  (res_operation m = "normal"
   /\ exists dv k,
        res_display_value m = Some dv
        /\ res_value m = Some (float_mul (float_of_Decimal dv) (float_1e k)))
  \/ (res_operation m = "overload"
      /\ res_display_value m = None /\ res_value m = None).
Proof.
  intros Hp.
  apply parse_inr_frame in Hp as (fn & table & rng & _ & _ & _ & _ & ->).
  unfold results, frame_of.
  cbn [res_operation res_display_value res_value f_operation f_display_value
         f_value].
  destruct (test_bit (byte_val s) 0).
  - right. repeat split.
  - left. split; [reflexivity |]. eexists _, _. split; reflexivity.
Qed.

Lemma parse_value_presence_witness :
  (res_operation scenario_1_results = "normal"
   /\ exists dv k,
        res_display_value scenario_1_results = Some dv
        /\ res_value scenario_1_results
           = Some (float_mul (float_of_Decimal dv) (float_1e k)))
  \/ (res_operation scenario_1_results = "overload"
      /\ res_display_value scenario_1_results = None
      /\ res_value scenario_1_results = None).
Proof.
  apply (parse_value_presence Byte.x00 Byte.x06 Byte.x00 Byte.x00 Byte.x00
           Byte.x0b Byte.x00 Byte.x00 Byte.x08 scenario_1_results).
  vm_compute. reflexivity.
Defined.

(** X13: a Measurement has mode "duty_cycle" exactly when the function
    nibble is 0x02 and JUDGE (bit 3 of status_byte) is set; in every other
    case mode and unit are those of the FUNCTION entry and display_unit is
    that of the range entry the range nibble selects. *)
Theorem parse_mode_override (r d0 d1 d2 d3 f s o1 o2 : Byte.byte)
    (m : Measurement) :
  parse [r; d0; d1; d2; d3; f; s; o1; o2] = inr m ->
  (res_mode m = "duty_cycle"
   <-> Z.land (byte_val f) 0x0f = 0x02 /\ test_bit (byte_val s) 3 = true)
  /\ (res_mode m <> "duty_cycle" ->
      exists fn table rng,
        FUNCTION !! Z.land (byte_val f) 0x0f = Some fn
        /\ fn.1.2 = Some table
        /\ table !! Z.to_nat (Z.land (byte_val r) 0x0f) = Some rng
        /\ res_mode m = fn.1.1
        /\ res_unit m = fn.2
        /\ res_display_unit m = range_display_unit rng).
Proof.
  intros Hp.
  apply parse_inr_frame in Hp as (fn & table & rng & Hfn & Ht & Hl & _ & ->).
  unfold results, frame_of.
  cbn [res_mode res_unit res_display_unit f_mode f_unit f_display_unit].
  assert (Hmode : (String.eqb fn.1.1 "frequency" = true
                   <-> Z.land (byte_val f) 0x0f = 0x02)
                  /\ fn.1.1 <> "duty_cycle").
  { pose proof Hfn as Hin. apply FUNCTION_entries in Hin.
    elem_cases Hin; injection Hin as Hc ->; rewrite Hc; cbn;
      (split; [split; intros H; try discriminate H; reflexivity
              | discriminate]). }
  destruct Hmode as (Hfreq & Hnd).
  destruct (String.eqb fn.1.1 "frequency") eqn:Heq;
    destruct (test_bit (byte_val s) 3) eqn:Hj; cbn [andb].
  - split.
    + split; [intros _; split; [apply Hfreq |]; reflexivity | reflexivity].
    + intros Hne. exfalso. apply Hne. reflexivity.
  - split.
    + split; [intros H; exfalso; exact (Hnd H) | intros (_ & [=])].
    + intros _. exists fn, table, rng. repeat split; assumption.
  - split.
    + split; [intros H; exfalso; exact (Hnd H) |].
      intros (H2 & _). apply Hfreq in H2. discriminate H2.
    + intros _. exists fn, table, rng. repeat split; assumption.
  - split.
    + split; [intros H; exfalso; exact (Hnd H) | intros (_ & [=])].
    + intros _. exists fn, table, rng. repeat split; assumption.
Qed.

Lemma parse_mode_override_witness :
  (res_mode scenario_1_results = "duty_cycle"
   <-> Z.land (byte_val Byte.x0b) 0x0f = 0x02
       /\ test_bit (byte_val Byte.x00) 3 = true)
  /\ (res_mode scenario_1_results <> "duty_cycle" ->
      exists fn table rng,
        FUNCTION !! Z.land (byte_val Byte.x0b) 0x0f = Some fn
        /\ fn.1.2 = Some table
        /\ table !! Z.to_nat (Z.land (byte_val Byte.x00) 0x0f) = Some rng
        /\ res_mode scenario_1_results = fn.1.1
        /\ res_unit scenario_1_results = fn.2
        /\ res_display_unit scenario_1_results = range_display_unit rng).
Proof.
  apply (parse_mode_override Byte.x00 Byte.x06 Byte.x00 Byte.x00 Byte.x00
           Byte.x0b Byte.x00 Byte.x00 Byte.x08 scenario_1_results).
  vm_compute. reflexivity.
Defined.

(** X14: the Decimal display_value of a Measurement has a coefficient of
    at most 16665 (at most 9999 when the four digit nibbles are decimal
    digits) and an exponent between -3 and 0; its sign is set only when
    SIGN is set and the digits are not all zero, so an all-zero reading
    with SIGN set is a plain zero. *)
Theorem parse_display_value_bounds (r d0 d1 d2 d3 f s o1 o2 : Byte.byte)
    (m : Measurement) (dv : Decimal) :
  parse [r; d0; d1; d2; d3; f; s; o1; o2] = inr m ->
  res_display_value m = Some dv ->
  0 <= dec_int dv <= 16665
  /\ (Z.land (byte_val d0) 0x0f <= 9 -> Z.land (byte_val d1) 0x0f <= 9 ->
      Z.land (byte_val d2) 0x0f <= 9 -> Z.land (byte_val d3) 0x0f <= 9 ->
      dec_int dv <= 9999)
  /\ -3 <= dec_exp dv <= 0
  /\ (dec_sign dv = true <->
      test_bit (byte_val s) 2 = true /\ digits_integer d0 d1 d2 d3 <> 0).
Proof.
  intros Hp Hdv.
  apply parse_inr in Hp as (fr & Hfr & ->).
  apply parse_frame_inr in Hfr as (fn & rng & _ & _ & Hfn & Hrng & _ & ->).
  pose proof (frame_of_display_value d0 d1 d2 d3 s o1 o2 fn rng) as Hv.
  pose proof (frame_of_m_range_dp d0 d1 d2 d3 s o1 o2 _ _ fn rng Hfn Hrng) as Hdp.
  cbv zeta in Hv. cbn [results res_display_value] in Hdv.
  pose proof (digits_integer_bound d0 d1 d2 d3) as Hb.
  set (n := digits_integer d0 d1 d2 d3) in *.
  set (k := dp_digit_position
              (f_m_range (frame_of d0 d1 d2 d3 s o1 o2 fn rng))) in *.
  rewrite Hv in Hdv. clear Hv.
  destruct (test_bit (byte_val s) 0); [discriminate Hdv |].
  assert (Hd : dv = dec_div_int
                      (Decimal_of_int
                         (if test_bit (byte_val s) 2 then - n else n))
                      (10 ^ k)) by congruence.
  clear Hdv. subst dv.
  assert (Hbig : 16665 < 10 ^ prec) by reflexivity.
  destruct (dec_div_pow10 (if test_bit (byte_val s) 2 then - n else n) k)
    as (c & e & -> & He & Hc);
    [destruct (test_bit (byte_val s) 2); lia | lia |].
  cbn [dec_int dec_exp dec_sign].
  assert (Habs : Z.abs (if test_bit (byte_val s) 2 then - n else n) = n)
    by (destruct (test_bit (byte_val s) 2); lia).
  rewrite Habs in Hc.
  assert (Hpe : 0 < 10 ^ (e + k)) by (apply Z.pow_pos_nonneg; lia).
  assert (Hc0 : 0 <= c) by nia.
  assert (Hcn : c <= n) by nia.
  split; [lia |]. split.
  - intros H0 H1 H2 H3.
    pose proof (land_15_bound (byte_val d0)).
    pose proof (land_15_bound (byte_val d1)).
    pose proof (land_15_bound (byte_val d2)).
    pose proof (land_15_bound (byte_val d3)).
    assert (n <= 9999) by (unfold n, digits_integer; lia). lia.
  - split; [lia |].
    destruct (test_bit (byte_val s) 2); split.
    + intros Hlt. apply Z.ltb_lt in Hlt. split; [reflexivity | lia].
    + intros (_ & Hne). apply Z.ltb_lt. lia.
    + intros Hlt. apply Z.ltb_lt in Hlt. lia.
    + intros ([=] & _).
Qed.

Lemma parse_display_value_bounds_witness :
  0 <= dec_int (mkDecimal false 6 0) <= 16665
  /\ (Z.land (byte_val Byte.x06) 0x0f <= 9 ->
      Z.land (byte_val Byte.x00) 0x0f <= 9 ->
      Z.land (byte_val Byte.x00) 0x0f <= 9 ->
      Z.land (byte_val Byte.x00) 0x0f <= 9 ->
      dec_int (mkDecimal false 6 0) <= 9999)
  /\ -3 <= dec_exp (mkDecimal false 6 0) <= 0
  /\ (dec_sign (mkDecimal false 6 0) = true <->
      test_bit (byte_val Byte.x00) 2 = true
      /\ digits_integer Byte.x06 Byte.x00 Byte.x00 Byte.x00 <> 0).
Proof.
  apply (parse_display_value_bounds Byte.x00 Byte.x06 Byte.x00 Byte.x00
           Byte.x00 Byte.x0b Byte.x00 Byte.x00 Byte.x08 scenario_1_results);
    vm_compute; reflexivity.
Defined.



(** ** output_readable, format_field and output_csv *)

(** X16: what output_readable makes of a parsed packet: with BATT set it
    raises AttributeError; otherwise the line is "-, the measurement is
    overloaded!" when OL is set and str(display_value), a space and the
    display unit when it is not. *)
Theorem output_readable_of_parse (r d0 d1 d2 d3 f s o1 o2 : Byte.byte)
    (m : Measurement) :
  parse [r; d0; d1; d2; d3; f; s; o1; o2] = inr m ->
  (test_bit (byte_val s) 1 = true -> output_readable m = inl AttributeError)
  /\ (test_bit (byte_val s) 1 = false -> test_bit (byte_val s) 0 = true ->
      output_readable m = inr "-, the measurement is overloaded!")
  /\ (test_bit (byte_val s) 1 = false -> test_bit (byte_val s) 0 = false ->
      exists dv,
        res_display_value m = Some dv
        /\ output_readable m
           = inr (Decimal_str dv +:+ " " +:+ res_display_unit m)).
Proof.
  intros Hp.
  apply parse_inr_frame in Hp as (fn & table & rng & _ & _ & _ & _ & ->).
  rewrite output_readable_spec. unfold results, frame_of.
  cbn [res_battery_low res_operation res_display_value res_display_unit
         f_battery_low f_operation f_display_value f_display_unit].
  repeat split.
  - intros ->. reflexivity.
  - intros -> ->. reflexivity.
  - intros -> ->. eexists. split; reflexivity.
Qed.

Lemma output_readable_of_parse_witness :
  (test_bit (byte_val Byte.x00) 1 = true ->
   output_readable scenario_1_results = inl AttributeError)
  /\ (test_bit (byte_val Byte.x00) 1 = false ->
      test_bit (byte_val Byte.x00) 0 = true ->
      output_readable scenario_1_results
      = inr "-, the measurement is overloaded!")
  /\ (test_bit (byte_val Byte.x00) 1 = false ->
      test_bit (byte_val Byte.x00) 0 = false ->
      exists dv,
        res_display_value scenario_1_results = Some dv
        /\ output_readable scenario_1_results
           = inr (Decimal_str dv +:+ " "
                  +:+ res_display_unit scenario_1_results)).
Proof.
  apply (output_readable_of_parse Byte.x00 Byte.x06 Byte.x00 Byte.x00 Byte.x00
           Byte.x0b Byte.x00 Byte.x00 Byte.x08 scenario_1_results).
  vm_compute. reflexivity.
Defined.

Lemma format_field_str (str_float : pyfloat -> string) (m : Measurement)
    (k s : string) :
  String.eqb k "value" = false ->
  results_getitem m k = Some (PyStr s) ->
  format_field str_float m k = inr s.
Proof.
  intros Hk Hg. unfold format_field. rewrite Hk, Hg. reflexivity.
Qed.

(** X17: format_field returns a text for each of the eleven keys of
    results and raises KeyError for every other field name. *)
Theorem format_field_keys (str_float : pyfloat -> string) (m : Measurement)
    (field_name : string) :
  (In field_name results_keys ->
   exists text, format_field str_float m field_name = inr text)
  /\ (~ In field_name results_keys ->
      format_field str_float m field_name
      = inl (KeyError_results field_name)).
Proof.
  split.
  - intros Hin. cbn in Hin.
    repeat (destruct Hin as [<- | Hin];
            [unfold format_field, results_getitem; cbn;
             repeat match goal with
                    | |- context [match ?x with _ => _ end] => destruct x
                    end; eauto |]).
    destruct Hin.
  - intros Hnot. unfold format_field, results_getitem.
    assert (Hne : forall k, In k results_keys -> String.eqb field_name k = false).
    { intros k Hk. apply String.eqb_neq. intros ->. exact (Hnot Hk). }
    rewrite !Hne by (cbn; tauto). reflexivity.
Qed.

Lemma format_field_keys_witness :
  format_field (fun _ => "6.0") scenario_1_results "timestamp"
  = inl (KeyError_results "timestamp").
Proof.
  apply (format_field_keys (fun _ => "6.0") scenario_1_results "timestamp").
  cbn. intros Hin.
  repeat (destruct Hin as [Hin | Hin]; [discriminate Hin |]). exact Hin.
Defined.

Lemma output_csv_eq (str_float : pyfloat -> string) (m : Measurement) :
  output_csv str_float m
  = inr (join ";"
           [ (if String.eqb (res_operation m) "normal"
              then match res_value m with
                   | Some x => str_float x
                   | None => EmptyString
                   end
              else EmptyString);
             res_unit m;
             res_mode m;
             default EmptyString (res_current m);
             res_operation m;
             default EmptyString (res_peak m);
             bool_text (res_battery_low m);
             bool_text (res_hold m) ]).
Proof.
  unfold output_csv, CSV_FIELDS. cbn [format_fields].
  unfold format_field at 1. cbn [String.eqb Ascii.eqb Bool.eqb].
  rewrite (format_field_str _ m "unit" (res_unit m)) by reflexivity.
  rewrite (format_field_str _ m "mode" (res_mode m)) by reflexivity.
  rewrite (format_field_str _ m "operation" (res_operation m)) by reflexivity.
  unfold format_field, results_getitem. cbn [String.eqb Ascii.eqb Bool.eqb].
  destruct (res_current m), (res_peak m), (res_battery_low m), (res_hold m),
    (String.eqb (res_operation m) "normal"); reflexivity.
Qed.

(** X18: output_csv never raises, and its line is the eight fields value,
    unit, mode, current, operation, peak, battery_low, hold in this order
    with ";" between: value is empty unless operation is "normal", a
    missing current or peak is empty, and the two bools are "1" or "0".
    display_value, display_unit and range are not in the line. *)
Theorem output_csv_line (str_float : pyfloat -> string) (m : Measurement) :
  output_csv str_float m
  = inr (join ";"
           [ (if String.eqb (res_operation m) "normal"
              then match res_value m with
                   | Some x => str_float x
                   | None => EmptyString
                   end
              else EmptyString);
             res_unit m;
             res_mode m;
             default EmptyString (res_current m);
             res_operation m;
             default EmptyString (res_peak m);
             bool_text (res_battery_low m);
             bool_text (res_hold m) ]).
Proof. exact (output_csv_eq str_float m). Qed.

Lemma count_semicolons_app (a b : string) :
  count_semicolons (a +:+ b) = (count_semicolons a + count_semicolons b)%nat.
Proof.
  induction a as [| c a IH].
  - reflexivity.
  - change (String c a +:+ b) with (String c (a +:+ b)).
    cbn [count_semicolons]. rewrite IH. lia.
Qed.

(** X19: the CSV line of a packet that parses has exactly seven
    semicolons, that is eight columns, as long as str of a float has none:
    no unit, mode or flag text of the tables holds a semicolon. *)
Theorem output_csv_columns (str_float : pyfloat -> string)
    (r d0 d1 d2 d3 f s o1 o2 : Byte.byte) (m : Measurement) :
  (forall x, count_semicolons (str_float x) = 0%nat) ->
  parse [r; d0; d1; d2; d3; f; s; o1; o2] = inr m ->
  exists line,
    output_csv str_float m = inr line /\ count_semicolons line = 7%nat.
Proof.
  intros Hsf Hp. rewrite output_csv_eq. eexists. split; [reflexivity |].
  apply parse_inr_frame in Hp as (fn & table & rng & Hfn & _ & _ & _ & ->).
  assert (Hunit : count_semicolons
                    (res_unit (results (frame_of d0 d1 d2 d3 s o1 o2 fn rng)))
                  = 0%nat
                  /\ count_semicolons
                       (res_mode
                          (results (frame_of d0 d1 d2 d3 s o1 o2 fn rng)))
                     = 0%nat).
  { unfold results, frame_of. cbn [res_unit res_mode f_unit f_mode].
    destruct (String.eqb fn.1.1 "frequency" && test_bit (byte_val s) 3);
      [split; reflexivity |].
    apply FUNCTION_entries in Hfn.
    elem_cases Hfn; injection Hfn as _ ->; split; reflexivity. }
  destruct Hunit as (Hu & Hm).
  cbn [join]. rewrite !count_semicolons_app, Hu, Hm.
  unfold results, frame_of.
  cbn [res_operation res_value res_current res_peak res_battery_low res_hold
         f_operation f_value f_current f_peak f_battery_low f_hold].
  destruct (test_bit (byte_val s) 0), (test_bit (byte_val o2) 3),
    (test_bit (byte_val o2) 2), (test_bit (byte_val o1) 2),
    (test_bit (byte_val o1) 1), (test_bit (byte_val s) 1),
    (test_bit (byte_val o1) 3);
    cbn [String.eqb Ascii.eqb Bool.eqb default bool_text];
    rewrite ?Hsf; reflexivity.
Qed.

Lemma output_csv_columns_witness :
  exists line,
    output_csv (fun _ => "6.0") scenario_1_results = inr line
    /\ count_semicolons line = 7%nat.
Proof.
  apply (output_csv_columns (fun _ => "6.0") Byte.x00 Byte.x06 Byte.x00
           Byte.x00 Byte.x00 Byte.x0b Byte.x00 Byte.x00 Byte.x08
           scenario_1_results).
  - intros x. reflexivity.
  - vm_compute. reflexivity.
Defined.

(** ** The read loop *)

Lemma loop_body_not_9 (str_float : pyfloat -> string)
    (mode : string) (file_name : option string) (ts_date ts_time : string)
    (results : option Measurement) (line : list Byte.byte) :
  length line <> 9%nat ->
  loop_body str_float mode file_name ts_date ts_time results line
  = ([if (length line =? 0)%nat then LogWarning_not_a_response
      else LogWarning_unknown_packet line (length line)],
     inr results).
Proof.
  intros Hlen. unfold loop_body.
  destruct (Nat.eqb_spec (length line) 9) as [H9 | _]; [contradiction |].
  destruct (length line =? 0)%nat; reflexivity.
Qed.

(** X20: a line that is not nine bytes long is only logged: one warning,
    no output, no exception, and the local results keeps its binding. *)
Theorem loop_body_other_length (str_float : pyfloat -> string)
    (mode : string) (file_name : option string) (ts_date ts_time : string)
    (results : option Measurement) (line : list Byte.byte) :
  length line <> 9%nat ->
  loop_body str_float mode file_name ts_date ts_time results line
  = ([if (length line =? 0)%nat then LogWarning_not_a_response
      else LogWarning_unknown_packet line (length line)],
     inr results).
Proof.
  exact (loop_body_not_9 str_float mode file_name ts_date ts_time results line).
Qed.

Lemma loop_body_other_length_witness :
  loop_body (fun _ => "6.0") "csv" (Some "out.csv") "2014-01-01" "12:00:00"
    (Some scenario_1_results) [Byte.x00; Byte.x06]
  = ([LogWarning_unknown_packet [Byte.x00; Byte.x06] 2],
     inr (Some scenario_1_results)).
Proof.
  apply (loop_body_other_length (fun _ => "6.0") "csv" (Some "out.csv")
           "2014-01-01" "12:00:00" (Some scenario_1_results)
           [Byte.x00; Byte.x06]).
  discriminate.
Defined.

(** X21: in csv mode a line of nine bytes that parse rejects does not
    skip the output: after the warning the row of the Measurement still
    bound to results, the one of an earlier line, is written again under
    the new timestamp. *)
Theorem loop_body_csv_stale_row (str_float : pyfloat -> string)
    (file_name : option string) (ts_date ts_time : string)
    (previous : Measurement) (line : list Byte.byte) (e : error) :
  length line = 9%nat ->
  parse line = inl e ->
  exists row,
    output_csv str_float previous = inr row
    /\ loop_body str_float "csv" file_name ts_date ts_time (Some previous) line
       = ([LogWarning_error_packet e line;
           FileWrite ((ts_date +:+ " " +:+ ts_time) +:+ ";" +:+ row
                      +:+ newline)],
          inr (Some previous)).
Proof.
  intros Hlen Hp. eexists. split; [apply output_csv_eq |].
  unfold loop_body. rewrite Hlen, Hp. cbn [Nat.eqb String.eqb Ascii.eqb Bool.eqb].
  rewrite output_csv_eq. reflexivity.
Qed.

Lemma loop_body_csv_stale_row_witness :
  exists row,
    output_csv (fun _ => "6.0") scenario_1_results = inr row
    /\ loop_body (fun _ => "6.0") "csv" (Some "out.csv") "2014-01-01"
         "12:00:00" (Some scenario_1_results)
         [Byte.x00; Byte.x06; Byte.x00; Byte.x00; Byte.x00;
          Byte.x0a; Byte.x00; Byte.x00; Byte.x08]
       = ([LogWarning_error_packet UnknownFunction
             [Byte.x00; Byte.x06; Byte.x00; Byte.x00; Byte.x00;
              Byte.x0a; Byte.x00; Byte.x00; Byte.x08];
           FileWrite (("2014-01-01" +:+ " " +:+ "12:00:00") +:+ ";" +:+ row
                      +:+ newline)],
          inr (Some scenario_1_results)).
Proof.
  apply (loop_body_csv_stale_row (fun _ => "6.0") (Some "out.csv")
           "2014-01-01" "12:00:00" scenario_1_results
           [Byte.x00; Byte.x06; Byte.x00; Byte.x00; Byte.x00;
            Byte.x0a; Byte.x00; Byte.x00; Byte.x08] UnknownFunction);
    vm_compute; reflexivity.
Defined.

(** X22: when parse rejects a line of nine bytes while results has never
    been assigned (no earlier line parsed), the loop raises
    UnboundLocalError for results after the warning, in each of the three
    modes csv, readable and plot; nothing is written. *)
Theorem loop_body_unbound_results (str_float : pyfloat -> string)
    (mode : string) (file_name : option string) (ts_date ts_time : string)
    (line : list Byte.byte) (e : error) :
  In mode ["csv"; "readable"; "plot"] ->
  length line = 9%nat ->
  parse line = inl e ->
  loop_body str_float mode file_name ts_date ts_time None line
  = ([LogWarning_error_packet e line], inl (UnboundLocalError "results")).
Proof.
  intros Hmode Hlen Hp. unfold loop_body. rewrite Hlen, Hp.
  cbn in Hmode. destruct Hmode as [<- | [<- | [<- | []]]]; reflexivity.
Qed.

Lemma loop_body_unbound_results_witness :
  loop_body (fun _ => "6.0") "readable" None "2014-01-01" "12:00:00" None
    [Byte.x00; Byte.x06; Byte.x00; Byte.x00; Byte.x00;
     Byte.x0b; Byte.x00; Byte.x01; Byte.x08]
  = ([LogWarning_error_packet InvalidStatusBits
        [Byte.x00; Byte.x06; Byte.x00; Byte.x00; Byte.x00;
         Byte.x0b; Byte.x00; Byte.x01; Byte.x08]],
     inl (UnboundLocalError "results")).
Proof.
  apply (loop_body_unbound_results (fun _ => "6.0") "readable" None
           "2014-01-01" "12:00:00"
           [Byte.x00; Byte.x06; Byte.x00; Byte.x00; Byte.x00;
            Byte.x0b; Byte.x00; Byte.x01; Byte.x08] InvalidStatusBits).
  - cbn. tauto.
  - reflexivity.
  - vm_compute. reflexivity.
Defined.

(** X23: plot mode never puts anything out.  main assigns file_name only
    in csv mode, so a line of nine bytes ends the loop with
    UnboundLocalError: for results when no line has parsed yet, for
    file_name at open(file_name, 'a') otherwise; no write and no print
    comes before. *)
Theorem loop_body_plot_raises (str_float : pyfloat -> string)
    (args_file : option string) (stamp ts_date ts_time : string)
    (results : option Measurement) (line : list Byte.byte) :
  length line = 9%nat ->
  main_setup "plot" args_file stamp = ([], None)
  /\ exists log var,
       loop_body str_float "plot" (main_setup "plot" args_file stamp).2
         ts_date ts_time results line
       = (log, inl (UnboundLocalError var))
       /\ (var = "results" \/ var = "file_name")
       /\ List.filter is_output log = [].
Proof.
  intros Hlen. split; [reflexivity |].
  unfold loop_body. rewrite Hlen. cbn [main_setup snd Nat.eqb].
  change (main_setup "plot" args_file stamp).2 with (@None string).
  destruct (parse line) as [e | m].
  - destruct results as [previous |].
    + exists [LogWarning_error_packet e line], "file_name".
      repeat split. right. reflexivity.
    + exists [LogWarning_error_packet e line], "results".
      repeat split. left. reflexivity.
  - exists [], "file_name". repeat split. right. reflexivity.
Qed.

Lemma loop_body_plot_raises_witness :
  main_setup "plot" (Some "plot.txt") "2014-01-01_12:00" = ([], None)
  /\ exists log var,
       loop_body (fun _ => "6.0") "plot"
         (main_setup "plot" (Some "plot.txt") "2014-01-01_12:00").2
         "2014-01-01" "12:00:00" None scenario_1_packet
       = (log, inl (UnboundLocalError var))
       /\ (var = "results" \/ var = "file_name")
       /\ List.filter is_output log = [].
Proof.
  apply (loop_body_plot_raises (fun _ => "6.0") (Some "plot.txt")
           "2014-01-01_12:00" "2014-01-01" "12:00:00" None scenario_1_packet).
  reflexivity.
Defined.

(** X24: in readable mode a packet that parses with BATT set ends the
    loop: output_readable raises AttributeError outside the try, nothing
    is printed for the packet. *)
Theorem loop_body_readable_battery_low (str_float : pyfloat -> string)
    (file_name : option string) (ts_date ts_time : string)
    (results : option Measurement) (line : list Byte.byte)
    (m : Measurement) :
  parse line = inr m ->
  res_battery_low m = true ->
  loop_body str_float "readable" file_name ts_date ts_time results line
  = ([], inl (Raised AttributeError)).
Proof.
  intros Hp Hb.
  assert (Hlen : length line = 9%nat).
  { destruct (Nat.eq_dec (length line) 9%nat) as [H9 | Hne]; [exact H9 |].
    apply parse_wrong_length in Hne. rewrite Hne in Hp. discriminate Hp. }
  unfold loop_body. rewrite Hlen, Hp.
  cbn [Nat.eqb String.eqb Ascii.eqb Bool.eqb].
  rewrite output_readable_spec, Hb. reflexivity.
Qed.

Lemma loop_body_readable_battery_low_witness :
  loop_body (fun _ => "6.0") "readable" None "2014-01-01" "12:00:00" None
    battery_low_packet
  = ([], inl (Raised AttributeError)).
Proof.
  apply (loop_body_readable_battery_low (fun _ => "6.0") None "2014-01-01"
           "12:00:00" None battery_low_packet battery_low_results);
    vm_compute; reflexivity.
Defined.

Lemma loop_body_csv_bound (str_float : pyfloat -> string)
    (file_name : option string) (ts_date ts_time : string)
    (previous : Measurement) (line : list Byte.byte) :
  exists events current,
    loop_body str_float "csv" file_name ts_date ts_time (Some previous) line
    = (events, inr (Some current))
    /\ length (List.filter is_output events)
       = (if (length line =? 9)%nat then 1 else 0)%nat.
Proof.
  unfold loop_body. destruct (length line =? 9)%nat.
  - cbn [String.eqb Ascii.eqb Bool.eqb].
    destruct (parse line) as [e | m]; rewrite output_csv_eq;
      eexists _, _; split; reflexivity.
  - destruct (negb (length line =? 0)%nat); eexists _, _; split; reflexivity.
Qed.

Lemma main_loop_csv_total (str_float : pyfloat -> string)
    (file_name : option string) (previous : Measurement)
    (lines : list (string * string * list Byte.byte)) :
  exists events last,
    main_loop str_float "csv" file_name (Some previous) lines
    = (events, inr (Some last))
    /\ length (List.filter is_output events)
       = length (List.filter (fun l => (length l.2 =? 9)%nat) lines).
Proof.
  revert previous. induction lines as [| [[ts_date ts_time] line] rest IH];
    intros previous.
  - exists [], previous. split; reflexivity.
  - cbn [main_loop].
    destruct (loop_body_csv_bound str_float file_name ts_date ts_time
                previous line) as (events & current & Hbody & Hcount).
    rewrite Hbody.
    destruct (IH current) as (events' & last & Hrest & Hcount').
    rewrite Hrest. exists (events ++ events')%list, last.
    split; [reflexivity |].
    rewrite List.filter_app, length_app, Hcount, Hcount'.
    cbn [List.filter snd]. destruct (length line =? 9)%nat; reflexivity.
Qed.

(** X25: in csv mode, once results is bound the loop never raises: for
    every further input it runs to the end and writes exactly one row for
    each line of nine bytes, whether the line parsed or not. *)
Theorem main_loop_csv_bound (str_float : pyfloat -> string)
    (file_name : option string) (previous : Measurement)
    (lines : list (string * string * list Byte.byte)) :
  exists events last,
    main_loop str_float "csv" file_name (Some previous) lines
    = (events, inr (Some last))
    /\ length (List.filter is_output events)
       = length (List.filter (fun l => (length l.2 =? 9)%nat) lines).
Proof. exact (main_loop_csv_total str_float file_name previous lines). Qed.

(** X26: in csv mode the loop can only raise UnboundLocalError for
    results, and only at the first line of nine bytes, when parse rejects
    it: the lines before it are not nine bytes long, and nothing has been
    written. *)
Theorem main_loop_csv_raises (str_float : pyfloat -> string)
    (file_name : option string)
    (lines : list (string * string * list Byte.byte))
    (events : list event) (e : exn) :
  main_loop str_float "csv" file_name None lines = (events, inl e) ->
  e = UnboundLocalError "results"
  /\ List.filter is_output events = []
  /\ exists before ts_date ts_time line after err,
       lines = (before ++ (ts_date, ts_time, line) :: after)%list
       /\ Forall (fun l => length l.2 <> 9%nat) before
       /\ length line = 9%nat
       /\ parse line = inl err.
Proof.
  revert events e. induction lines as [| [[ts_date ts_time] line] rest IH];
    intros events e Hloop.
  - discriminate Hloop.
  - cbn [main_loop] in Hloop.
    destruct (Nat.eq_dec (length line) 9%nat) as [H9 | Hne].
    + unfold loop_body in Hloop. rewrite H9 in Hloop.
      cbn [Nat.eqb String.eqb Ascii.eqb Bool.eqb] in Hloop.
      destruct (parse line) as [err | m] eqn:Hp.
      * injection Hloop as <- <-. split; [reflexivity |].
        split; [reflexivity |].
        exists [], ts_date, ts_time, line, rest, err.
        split; [reflexivity |]. split; [constructor |].
        split; [exact H9 | exact Hp].
      * rewrite output_csv_eq in Hloop.
        destruct (main_loop_csv_total str_float file_name m rest)
          as (ev' & last & Hrest & _).
        rewrite Hrest in Hloop. discriminate Hloop.
    + rewrite (loop_body_not_9 _ _ _ _ _ _ _ Hne) in Hloop.
      destruct (main_loop str_float "csv" file_name None rest)
        as [ev' [e' | r']] eqn:Hrest; [| discriminate Hloop].
      injection Hloop as <- <-.
      destruct (IH ev' e' eq_refl)
        as (He & Hout & before & d & t & l & after & err & Hl & Hall & H9 & Hp).
      split; [exact He |]. split.
      * cbn [app List.filter].
        destruct (length line =? 0)%nat; cbn [is_output]; exact Hout.
      * exists ((ts_date, ts_time, line) :: before), d, t, l, after, err.
        repeat split; try assumption.
        -- rewrite Hl. reflexivity.
        -- constructor; [exact Hne | exact Hall].
Qed.

Lemma main_loop_csv_raises_witness :
  UnboundLocalError "results" = UnboundLocalError "results"
  /\ List.filter is_output
       [LogWarning_unknown_packet [Byte.x00] 1;
        LogWarning_error_packet ConflictingCurrentType
          [Byte.x00; Byte.x06; Byte.x00; Byte.x00; Byte.x00;
           Byte.x0b; Byte.x00; Byte.x00; Byte.x0c]] = []
  /\ exists before ts_date ts_time line after err,
       [("2014-01-01", "12:00:00", [Byte.x00]);
        ("2014-01-01", "12:00:01",
         [Byte.x00; Byte.x06; Byte.x00; Byte.x00; Byte.x00;
          Byte.x0b; Byte.x00; Byte.x00; Byte.x0c])]
       = (before ++ (ts_date, ts_time, line) :: after)%list
       /\ Forall (fun l => length l.2 <> 9%nat) before
       /\ length line = 9%nat
       /\ parse line = inl err.
Proof.
  apply (main_loop_csv_raises (fun _ => "6.0") (Some "out.csv")
           [("2014-01-01", "12:00:00", [Byte.x00]);
            ("2014-01-01", "12:00:01",
             [Byte.x00; Byte.x06; Byte.x00; Byte.x00; Byte.x00;
              Byte.x0b; Byte.x00; Byte.x00; Byte.x0c])]).
  vm_compute. reflexivity.
Defined.
